(** * RayForce: the Entity transform bridge (src/entities/entity.{h,cpp})

    A shallow embedding of [Entity], the class that keeps a raylib transform
    (position, quaternion, Euler angles, world matrix) and a PhysX rigid
    dynamic actor in step.  Methods are state transformers over the Entity's
    own fields and over the three managers reached through [Window]:
    the PhysX actor store, the log and the render buffer. *)

From Stdlib Require Import ZArith Bool String.
From Stdlib Require Import Floats.SpecFloat.
From stdpp Require Import base option list gmap.

Local Open Scope Z_scope.

(** ** C++ [float]: IEEE-754 binary32 values

    [spec_float] keeps signed zeros, infinities and NaN apart, which is what
    [std::isfinite] and [mass <= 0.0f] look at. *)

Definition float : Type := spec_float.

Definition prec : Z := 24.
Definition emax : Z := 128.

(** The float nearest to [m * 2^e]. *)
Definition f32 (m e : Z) : float := binary_normalize prec emax m e false.

Definition fadd : float -> float -> float := SFadd prec emax.
Definition fsub : float -> float -> float := SFsub prec emax.
Definition fmul : float -> float -> float := SFmul prec emax.
Definition fdiv : float -> float -> float := SFdiv prec emax.

(** [a <= b] and [a < b] on floats; both are false when either side is NaN. *)
Definition fle (a b : float) : bool := SFleb a b.
Definition flt (a b : float) : bool := SFltb a b.

(** [std::isfinite] *)
Definition isfinite (a : float) : bool :=
  match a with
  | S754_zero _ | S754_finite _ _ _ => true
  | S754_infinity _ | S754_nan => false
  end.

Definition is_nan (a : float) : bool :=
  match a with S754_nan => true | _ => false end.

(** The literals of entity.h and entity.cpp. *)
Definition f0 : float := S754_zero false.             (* 0, 0.0f *)
Definition f1 : float := Eval cbv in f32 1 0.         (* 1, 1.0f *)
Definition f10 : float := Eval cbv in f32 10 0.       (* 10.0f *)
Definition f0_02 : float := Eval cbv in fdiv (f32 2 0) (f32 100 0). (* 0.02f *)
Definition f0_2 : float := Eval cbv in fdiv (f32 2 0) (f32 10 0).   (* 0.2f *)

(** raylib: [#define PI 3.14159265358979323846f] and
    [#define RAD2DEG (180.0f/PI)]. *)
Definition PI : float := Eval cbv in f32 13176795 (-22).
Definition RAD2DEG : float := Eval cbv in fdiv (f32 180 0) PI.

(** ** raylib value types *)

Module Vector3.
Record t : Type := mk { x : float; y : float; z : float }.
End Vector3.

Module Quaternion.
Record t : Type := mk { x : float; y : float; z : float; w : float }.
End Quaternion.

Module Matrix.
(** Field order of the initialiser is irrelevant here: every access in
    entity.cpp is by field name. *)
Record t : Type := mk {
  m0 : float; m1 : float; m2 : float; m3 : float;
  m4 : float; m5 : float; m6 : float; m7 : float;
  m8 : float; m9 : float; m10 : float; m11 : float;
  m12 : float; m13 : float; m14 : float; m15 : float }.
End Matrix.

(** ** PhysX value types *)

Module PxVec3.
Record t : Type := mk { x : float; y : float; z : float }.
(** [PxVec3(0)] *)
Definition splat (a : float) : t := mk a a a.
End PxVec3.

Module PxVec4.
Record t : Type := mk { x : float; y : float; z : float; w : float }.
(** [PxVec4(const PxVec3&, float)] *)
Definition ofVec3 (v : PxVec3.t) (w : float) : t :=
  mk (PxVec3.x v) (PxVec3.y v) (PxVec3.z v) w.
End PxVec4.

Module PxQuat.
Record t : Type := mk { x : float; y : float; z : float; w : float }.
(** [PxQuat(PxIdentity)] *)
Definition identity : t := mk f0 f0 f0 f1.
End PxQuat.

Module PxTransform.
Record t : Type := mk { q : PxQuat.t; p : PxVec3.t }.
(** [PxTransform(const PxVec3&)]: identity orientation. *)
Definition ofPosition (p : PxVec3.t) : t := mk PxQuat.identity p.
Definition set_q (q : PxQuat.t) (t0 : t) : t := mk q (p t0).
End PxTransform.

Module PxMat33.
Record t : Type :=
  mk { column0 : PxVec3.t; column1 : PxVec3.t; column2 : PxVec3.t }.

(** Modelled from the spec: [PxMat33(const PxQuat&)] is PhysX library code,
    not part of src/.  Spec 4.2 step 2 calls it "the rotation derived from
    the pose's orientation"; this is the usual quaternion-to-matrix
    expansion, evaluated in binary32 in the order PhysX writes it. *)
Definition ofQuat (q : PxQuat.t) : t :=
  let x := PxQuat.x q in
  let y := PxQuat.y q in
  let z := PxQuat.z q in
  let w := PxQuat.w q in
  let x2 := fadd x x in
  let y2 := fadd y y in
  let z2 := fadd z z in
  let xx := fmul x2 x in
  let yy := fmul y2 y in
  let zz := fmul z2 z in
  let xy := fmul x2 y in
  let xz := fmul x2 z in
  let xw := fmul x2 w in
  let yz := fmul y2 z in
  let yw := fmul y2 w in
  let zw := fmul z2 w in
  mk (PxVec3.mk (fsub (fsub f1 yy) zz) (fadd xy zw) (fsub xz yw))
     (PxVec3.mk (fsub xy zw) (fsub (fsub f1 xx) zz) (fadd yz xw))
     (PxVec3.mk (fadd xz yw) (fsub yz xw) (fsub (fsub f1 xx) yy)).

Definition identity : t :=
  mk (PxVec3.mk f1 f0 f0) (PxVec3.mk f0 f1 f0) (PxVec3.mk f0 f0 f1).
End PxMat33.

Module PxMat44.
Record t : Type := mk {
  column0 : PxVec4.t; column1 : PxVec4.t;
  column2 : PxVec4.t; column3 : PxVec4.t }.

(** Modelled from the spec: [PxMat44(const PxTransform&)] is PhysX library
    code, not part of src/.  Spec 4.2 steps 2 and 3: the first three columns
    hold the rotation basis vectors with a bottom element of 0, the fourth
    holds the translation with a bottom element of 1. *)
Definition ofTransform (t0 : PxTransform.t) : t :=
  let axes := PxMat33.ofQuat (PxTransform.q t0) in
  mk (PxVec4.ofVec3 (PxMat33.column0 axes) f0)
     (PxVec4.ofVec3 (PxMat33.column1 axes) f0)
     (PxVec4.ofVec3 (PxMat33.column2 axes) f0)
     (PxVec4.ofVec3 (PxTransform.p t0) f1).
End PxMat44.

(** ** The collaborators behind [Window]

    entity.cpp reaches the model manager, the PhysX SDK and the render manager
    through [Window::modelManager], [Window::physicsManager] and
    [Window::renderManager].  Their headers are not part of src/, so the
    types they declare and the two registry lookups are parameters, and
    raylib's [QuaternionToEuler] (atan2f and asinf inside) is one as well. *)

Section Entities.

Context {ModelID : Type}.     (* managers/model.h *)
Context {Model : Type}.       (* what a [Model*] of the model manager points at *)
Context {PxGeometry : Type}.  (* a cooked collision geometry *)
Context {PxMaterial : Type}.  (* what a [PxMaterial*] points at *)

Variable GetModel : ModelID -> Model.
Variable GetModelMaterial : ModelID -> PxMaterial.
Variable QuaternionToEuler : Quaternion.t -> Vector3.t.

(** *** PhysX actors *)

Record PxShape : Type := mkShape {
  geometry : PxGeometry;
  material : PxMaterial;
  contactOffset : float;
  restOffset : float }.

Record PxRigidDynamic : Type := mkActor {
  globalPose : PxTransform.t;
  linearVelocity : PxVec3.t;
  angularVelocity : PxVec3.t;
  userData : option N;          (* [void*]; [None] is null *)
  shapes : list PxShape;        (* exclusive shapes, in attach order *)
  bodyMass : float;
  sleepThreshold : float }.

(** A [PxRigidDynamic*] is a key of the actor store, a [PxShape*] an actor
    together with the position of the shape in it. *)
Definition ActorRef : Type := nat.
Definition ShapeRef : Type := (ActorRef * nat)%type.

Inductive LogLevel : Type := LOG_INFO | LOG_WARN | LOG_ERROR.

(** Everything outside the Entity that its methods read or write. *)
Record Env : Type := mkEnv {
  actors : gmap nat PxRigidDynamic;          (* live actors of the PhysX SDK *)
  logs : list (LogLevel * string);           (* newest entry last *)
  renderBuffer : list (Model * Matrix.t) }.  (* this frame's instances *)

Definition set_actors (m : gmap nat PxRigidDynamic) (env : Env) : Env :=
  mkEnv m (logs env) (renderBuffer env).

(** *** Calls into the collaborators

    A call threads [Env]; it has no result ([None]) where C++ has none either:
    a member call through a null pointer or through a released actor. *)

Definition M (A : Type) : Type := Env -> option (A * Env).

#[local] Instance M_ret : MRet M := fun A a env => Some (a, env).
#[local] Instance M_bind : MBind M := fun A B f c env =>
  match c env with
  | Some (a, env') => f a env'
  | None => None
  end.

(** [p->...] on a pointer that may be null. *)
Definition deref {A : Type} (p : option A) : M A := fun env =>
  match p with
  | Some a => Some (a, env)
  | None => None
  end.

Definition readActor {A : Type} (h : ActorRef) (f : PxRigidDynamic -> A) : M A :=
  fun env =>
    match actors env !! h with
    | Some a => Some (f a, env)
    | None => None
    end.

Definition writeActor (h : ActorRef) (f : PxRigidDynamic -> PxRigidDynamic) : M unit :=
  fun env =>
    match actors env !! h with
    | Some a => Some (tt, set_actors (<[h := f a]> (actors env)) env)
    | None => None
    end.

(** Modelled from the spec: the PhysX SDK is not part of src/.  Spec 6 gives
    the contract: [GetPose], [GetLinearVelocity] read what [SetPose],
    [SetLinearVelocity] last stored for that handle. *)
Definition getGlobalPose (h : ActorRef) : M PxTransform.t :=
  readActor h globalPose.

Definition getLinearVelocity (h : ActorRef) : M PxVec3.t :=
  readActor h linearVelocity.

Definition setGlobalPose (h : ActorRef) (t : PxTransform.t) : M unit :=
  writeActor h (fun a =>
    mkActor t (linearVelocity a) (angularVelocity a) (userData a) (shapes a)
            (bodyMass a) (sleepThreshold a)).

Definition setLinearVelocity (h : ActorRef) (v : PxVec3.t) : M unit :=
  writeActor h (fun a =>
    mkActor (globalPose a) v (angularVelocity a) (userData a) (shapes a)
            (bodyMass a) (sleepThreshold a)).

Definition setAngularVelocity (h : ActorRef) (v : PxVec3.t) : M unit :=
  writeActor h (fun a =>
    mkActor (globalPose a) (linearVelocity a) v (userData a) (shapes a)
            (bodyMass a) (sleepThreshold a)).

(** [hitbox->userData = p] *)
Definition setUserData (h : ActorRef) (p : option N) : M unit :=
  writeActor h (fun a =>
    mkActor (globalPose a) (linearVelocity a) (angularVelocity a) p (shapes a)
            (bodyMass a) (sleepThreshold a)).

Definition setSleepThreshold (h : ActorRef) (x : float) : M unit :=
  writeActor h (fun a =>
    mkActor (globalPose a) (linearVelocity a) (angularVelocity a) (userData a)
            (shapes a) (bodyMass a) x).

(** Modelled from the spec: [PxRigidBodyExt::setMassAndUpdateInertia] is PhysX
    library code.  Spec 4.4 step 4: the body's mass is set from the value
    passed; the inertia tensor is not part of this model. *)
Definition setMassAndUpdateInertia (h : ActorRef) (m : float) : M unit :=
  writeActor h (fun a =>
    mkActor (globalPose a) (linearVelocity a) (angularVelocity a) (userData a)
            (shapes a) m (sleepThreshold a)).

(** Modelled from the spec: [PxPhysics::createRigidDynamic].  Spec 6,
    [CreateBody(pose)]: a new body at that pose under a handle no live body
    has.  The body starts at rest, with no shape and no user data; its mass
    and sleep threshold are written by [SetHitbox] before anything reads
    them. *)
Definition createRigidDynamic (t : PxTransform.t) : M ActorRef := fun env =>
  let h := fresh (dom (actors env)) in
  let a := mkActor t (PxVec3.splat f0) (PxVec3.splat f0) None [] f1 f0 in
  Some (h, set_actors (<[h := a]> (actors env)) env).

(** [PxRigidDynamic::release] *)
Definition release (h : ActorRef) : M unit := fun env =>
  match actors env !! h with
  | Some _ => Some (tt, set_actors (delete h (actors env)) env)
  | None => None
  end.

(** Modelled from the spec: [PxRigidActorExt::createExclusiveShape].  Spec 4.4
    step 2: a shape built from the geometry and the material is attached to
    this body alone.  Its offsets are written by [SetHitbox] right after. *)
Definition createExclusiveShape (h : ActorRef) (g : PxGeometry) (m : PxMaterial)
  : M ShapeRef := fun env =>
  match actors env !! h with
  | Some a =>
      let a' := mkActor (globalPose a) (linearVelocity a) (angularVelocity a)
                        (userData a) (shapes a ++ [mkShape g m f0 f0])
                        (bodyMass a) (sleepThreshold a) in
      Some ((h, length (shapes a)), set_actors (<[h := a']> (actors env)) env)
  | None => None
  end.

Definition writeShape (s : ShapeRef) (f : PxShape -> PxShape) : M unit :=
  fun env =>
    match actors env !! s.1 with
    | Some a =>
        match shapes a !! s.2 with
        | Some sh =>
            let a' := mkActor (globalPose a) (linearVelocity a)
                              (angularVelocity a) (userData a)
                              (<[s.2 := f sh]> (shapes a))
                              (bodyMass a) (sleepThreshold a) in
            Some (tt, set_actors (<[s.1 := a']> (actors env)) env)
        | None => None
        end
    | None => None
    end.

Definition setContactOffset (s : ShapeRef) (x : float) : M unit :=
  writeShape s (fun sh => mkShape (geometry sh) (material sh) x (restOffset sh)).

Definition setRestOffset (s : ShapeRef) (x : float) : M unit :=
  writeShape s (fun sh => mkShape (geometry sh) (material sh) (contactOffset sh) x).

(** Modelled from the spec: [RF_LOG_WARN] is a macro of globals.h, which is
    not part of src/.  Spec 4.4 and 7: the condition is logged. *)
Definition RF_LOG_WARN (msg : string) : M unit := fun env =>
  Some (tt, mkEnv (actors env) (logs env ++ [(LOG_WARN, msg)]) (renderBuffer env)).

(** Modelled from the spec: [RenderManager::AddModelToRenderBuffer] is declared
    in managers/render.h, which is not part of src/.  Spec 6: append-only for
    the frame's instanced batch. *)
Definition AddModelToRenderBuffer (m : Model) (mat : Matrix.t) : M unit :=
  fun env =>
    Some (tt, mkEnv (actors env) (logs env) (renderBuffer env ++ [(m, mat)])).

(** ** [class Entity] (entity.h) *)

Record Entity : Type := mkEntity {
  worldMatrix : Matrix.t;
  rotationQuat : Quaternion.t;
  position : Vector3.t;
  rotation : Vector3.t;         (* Euler angles, degrees *)
  scale : Vector3.t;
  velocity : Vector3.t;
  model : option Model;         (* [Model*]; [None] is null *)
  modelID : ModelID;
  mass : float;
  hitbox : option ActorRef }.   (* [PxRigidDynamic*]; [None] is nullptr *)

Definition set_position (v : Vector3.t) (e : Entity) : Entity :=
  mkEntity (worldMatrix e) (rotationQuat e) v (rotation e) (scale e)
           (velocity e) (model e) (modelID e) (mass e) (hitbox e).

Definition set_scale (v : Vector3.t) (e : Entity) : Entity :=
  mkEntity (worldMatrix e) (rotationQuat e) (position e) (rotation e) v
           (velocity e) (model e) (modelID e) (mass e) (hitbox e).

Definition set_mass (m : float) (e : Entity) : Entity :=
  mkEntity (worldMatrix e) (rotationQuat e) (position e) (rotation e) (scale e)
           (velocity e) (model e) (modelID e) m (hitbox e).

Definition set_hitbox (h : option ActorRef) (e : Entity) : Entity :=
  mkEntity (worldMatrix e) (rotationQuat e) (position e) (rotation e) (scale e)
           (velocity e) (model e) (modelID e) (mass e) h.

(** [Entity::Entity(Vector3 pos, ModelID _modelID)].  [worldMatrix] has no
    initialiser in entity.h, so it starts with whatever [uninit] the storage
    holds. *)
Definition Entity_ctor (uninit : Matrix.t) (pos : Vector3.t) (_modelID : ModelID)
  : Entity :=
  mkEntity uninit
           (Quaternion.mk f0 f0 f0 f1)
           pos
           (Vector3.mk f0 f0 f0)
           (Vector3.mk f1 f1 f1)
           (Vector3.mk f0 f0 f0)
           (Some (GetModel _modelID))
           _modelID
           f10
           None.

(** [Entity::~Entity()]: the object is gone afterwards, only [Env] is left. *)
Definition Entity_dtor (e : Entity) : M unit :=
  match hitbox e with
  | Some h => release h
  | None => mret tt
  end.

(** The sixteen assignments of step 3 of [PhysicsUpdate]; [m15] is the
    literal [1.0f], not [column3.w]. *)
Definition toRaylib (physxMat : PxMat44.t) : Matrix.t :=
  Matrix.mk
    (PxVec4.x (PxMat44.column0 physxMat)) (PxVec4.y (PxMat44.column0 physxMat))
    (PxVec4.z (PxMat44.column0 physxMat)) (PxVec4.w (PxMat44.column0 physxMat))
    (PxVec4.x (PxMat44.column1 physxMat)) (PxVec4.y (PxMat44.column1 physxMat))
    (PxVec4.z (PxMat44.column1 physxMat)) (PxVec4.w (PxMat44.column1 physxMat))
    (PxVec4.x (PxMat44.column2 physxMat)) (PxVec4.y (PxMat44.column2 physxMat))
    (PxVec4.z (PxMat44.column2 physxMat)) (PxVec4.w (PxMat44.column2 physxMat))
    (PxVec4.x (PxMat44.column3 physxMat)) (PxVec4.y (PxMat44.column3 physxMat))
    (PxVec4.z (PxMat44.column3 physxMat)) f1.

(** [void Entity::PhysicsUpdate()] *)
Definition PhysicsUpdate (e : Entity) : M Entity :=
  match hitbox e with
  | Some h =>
      transform ← getGlobalPose h;
      let p := PxTransform.p transform in
      let q := PxTransform.q transform in
      let position' := Vector3.mk (PxVec3.x p) (PxVec3.y p) (PxVec3.z p) in
      let rotationQuat' :=
        Quaternion.mk (PxQuat.x q) (PxQuat.y q) (PxQuat.z q) (PxQuat.w q) in
      let eulerRadians := QuaternionToEuler rotationQuat' in
      let rotation' :=
        Vector3.mk (fmul (Vector3.x eulerRadians) RAD2DEG)
                   (fmul (Vector3.y eulerRadians) RAD2DEG)
                   (fmul (Vector3.z eulerRadians) RAD2DEG) in
      let physxMat := PxMat44.ofTransform transform in
      let worldMatrix' := toRaylib physxMat in
      v ← getLinearVelocity h;
      let velocity' := Vector3.mk (PxVec3.x v) (PxVec3.y v) (PxVec3.z v) in
      mret (mkEntity worldMatrix' rotationQuat' position' rotation' (scale e)
                     velocity' (model e) (modelID e) (mass e) (hitbox e))
  | None => mret e
  end.

(** [void Entity::Sync()] *)
Definition Sync (e : Entity) : M Entity :=
  match hitbox e with
  | Some h =>
      let q := PxQuat.mk (Quaternion.x (rotationQuat e))
                         (Quaternion.y (rotationQuat e))
                         (Quaternion.z (rotationQuat e))
                         (Quaternion.w (rotationQuat e)) in
      setGlobalPose h
        (PxTransform.mk q (PxVec3.mk (Vector3.x (position e))
                                     (Vector3.y (position e))
                                     (Vector3.z (position e))));;
      setLinearVelocity h (PxVec3.mk (Vector3.x (velocity e))
                                     (Vector3.y (velocity e))
                                     (Vector3.z (velocity e)));;
      mret e
  | None => mret e
  end.

(** [void Entity::Render()] *)
Definition Render (e : Entity) : M Entity :=
  match model e with
  | Some m => AddModelToRenderBuffer m (worldMatrix e);; mret e
  | None => mret e
  end.

(** [void Entity::SetHitbox(PxGeometry* pgeometry)]; [this] is the address
    of the Entity, stored in the actor's [userData]. *)
Definition SetHitbox (this : N) (pgeometry : option PxGeometry) (e : Entity)
  : M Entity :=
  match pgeometry with
  | None => RF_LOG_WARN "Called with null geometry";; mret e
  | Some geometry =>
      (* 1. Validate initial state *)
      let e := if negb (isfinite (Vector3.x (position e)))
               then set_position (Vector3.mk f0 f0 f0) e else e in
      let e := if fle (mass e) f0 then set_mass f1 e else e in
      (* 2. Initialize Actor with current position and Identity rotation *)
      let initialTransform :=
        PxTransform.ofPosition (PxVec3.mk (Vector3.x (position e))
                                          (Vector3.y (position e))
                                          (Vector3.z (position e))) in
      let initialTransform := PxTransform.set_q PxQuat.identity initialTransform in
      e ← match hitbox e with
          | None =>
              h ← createRigidDynamic initialTransform;
              setUserData h (Some this);;
              mret (set_hitbox (Some h) e)
          | Some _ => mret e
          end;
      (* 3. Create Shape and Material *)
      let material := GetModelMaterial (modelID e) in
      h ← deref (hitbox e);
      shape ← createExclusiveShape h geometry material;
      setContactOffset shape f0_02;;
      setRestOffset shape f0;;
      (* 4. Finalize physical properties *)
      setMassAndUpdateInertia h (mass e);;
      setLinearVelocity h (PxVec3.splat f0);;
      setAngularVelocity h (PxVec3.splat f0);;
      setSleepThreshold h f0_2;;
      mret e
  end.

(** [void Entity::Update()] and [virtual void Init() {}]: empty bodies. *)
Definition Update (e : Entity) : M Entity := mret e.
Definition Init (e : Entity) : M Entity := mret e.

(** *** Method calls over an Entity's lifetime *)

Inductive Call : Type :=
| CallPhysicsUpdate
| CallSync
| CallRender
| CallUpdate
| CallInit
| CallSetHitbox (pgeometry : option PxGeometry).

Definition call (this : N) (c : Call) (e : Entity) : M Entity :=
  match c with
  | CallPhysicsUpdate => PhysicsUpdate e
  | CallSync => Sync e
  | CallRender => Render e
  | CallUpdate => Update e
  | CallInit => Init e
  | CallSetHitbox pgeometry => SetHitbox this pgeometry e
  end.

Fixpoint calls (this : N) (cs : list Call) (e : Entity) : M Entity :=
  match cs with
  | [] => mret e
  | c :: cs' => e' ← call this c e; calls this cs' e'
  end.

(** *** Vocabulary of the statements below *)

(** The Entity owns a live actor or none: [hitbox] is null or names an actor
    that has not been released. *)
Definition hitbox_ok (e : Entity) (env : Env) : Prop :=
  match hitbox e with
  | Some h => is_Some (actors env !! h)
  | None => True
  end.

(** What step 1 of [SetHitbox] leaves in the Entity. *)
Definition validated (e : Entity) : Entity :=
  let e := if negb (isfinite (Vector3.x (position e)))
           then set_position (Vector3.mk f0 f0 f0) e else e in
  if fle (mass e) f0 then set_mass f1 e else e.

(** The pose [SetHitbox] hands to [createRigidDynamic]. *)
Definition initialPose (e : Entity) : PxTransform.t :=
  PxTransform.mk PxQuat.identity
    (PxVec3.mk (Vector3.x (position (validated e)))
               (Vector3.y (position (validated e)))
               (Vector3.z (position (validated e)))).

(** What steps 3 and 4 of [SetHitbox] make of an actor [a]. *)
Definition outfitted (g : PxGeometry) (e : Entity) (a : PxRigidDynamic)
  : PxRigidDynamic :=
  mkActor (globalPose a) (PxVec3.splat f0) (PxVec3.splat f0) (userData a)
          (shapes a ++ [mkShape g (GetModelMaterial (modelID e)) f0_02 f0])
          (mass (validated e)) f0_2.

(** The upper-left 3x3 block and the translation column of a raylib matrix. *)
Definition rotationBlock (m : Matrix.t) : PxMat33.t :=
  PxMat33.mk (PxVec3.mk (Matrix.m0 m) (Matrix.m1 m) (Matrix.m2 m))
             (PxVec3.mk (Matrix.m4 m) (Matrix.m5 m) (Matrix.m6 m))
             (PxVec3.mk (Matrix.m8 m) (Matrix.m9 m) (Matrix.m10 m)).

Definition translation (m : Matrix.t) : PxVec3.t :=
  PxVec3.mk (Matrix.m12 m) (Matrix.m13 m) (Matrix.m14 m).

(** The Entity after [PhysicsUpdate] has read actor [a]. *)
Definition pulled (e : Entity) (a : PxRigidDynamic) : Entity :=
  let p := PxTransform.p (globalPose a) in
  let q := PxTransform.q (globalPose a) in
  let v := linearVelocity a in
  let quat := Quaternion.mk (PxQuat.x q) (PxQuat.y q) (PxQuat.z q) (PxQuat.w q) in
  mkEntity (toRaylib (PxMat44.ofTransform (globalPose a)))
           quat
           (Vector3.mk (PxVec3.x p) (PxVec3.y p) (PxVec3.z p))
           (Vector3.mk (fmul (Vector3.x (QuaternionToEuler quat)) RAD2DEG)
                       (fmul (Vector3.y (QuaternionToEuler quat)) RAD2DEG)
                       (fmul (Vector3.z (QuaternionToEuler quat)) RAD2DEG))
           (scale e)
           (Vector3.mk (PxVec3.x v) (PxVec3.y v) (PxVec3.z v))
           (model e) (modelID e) (mass e) (hitbox e).

(** Actor [a] after [Sync] has written the Entity into it. *)
Definition pushed (e : Entity) (a : PxRigidDynamic) : PxRigidDynamic :=
  mkActor
    (PxTransform.mk
       (PxQuat.mk (Quaternion.x (rotationQuat e)) (Quaternion.y (rotationQuat e))
                  (Quaternion.z (rotationQuat e)) (Quaternion.w (rotationQuat e)))
       (PxVec3.mk (Vector3.x (position e)) (Vector3.y (position e))
                  (Vector3.z (position e))))
    (PxVec3.mk (Vector3.x (velocity e)) (Vector3.y (velocity e))
               (Vector3.z (velocity e)))
    (angularVelocity a) (userData a) (shapes a) (bodyMass a) (sleepThreshold a).

(** *** Sample data *)

(** A PhysX SDK with no actor, an empty log and an empty render buffer. *)
Definition emptyEnv : Env := mkEnv ∅ [] [].

(** An Entity as its constructor leaves it, with a zeroed [worldMatrix]. *)
Definition newEntity (pos : Vector3.t) (id : ModelID) : Entity :=
  Entity_ctor
    (Matrix.mk f0 f0 f0 f0 f0 f0 f0 f0 f0 f0 f0 f0 f0 f0 f0 f0) pos id.

(** An actor at rest at pose [t] carrying no shape, under handle 0. *)
Definition oneActorEnv (t : PxTransform.t) (v : PxVec3.t) : Env :=
  mkEnv {[ 0%nat := mkActor t v (PxVec3.splat f0) None [] f1 f0 ]} [] [].

(** A model manager that hands out model [id] and material [id] for the
    identifier [id], and an Euler conversion that is constantly zero. *)
Definition sampleGetModel (id : nat) : nat := id.
Definition sampleGetModelMaterial (id : nat) : nat := id.
Definition sampleQuaternionToEuler (_ : Quaternion.t) : Vector3.t :=
  Vector3.mk f0 f0 f0.

(** *** Vocabulary of the further statements *)

(** Radians to degrees, axis by axis, as step 2 of [PhysicsUpdate] does it. *)
Definition toDegrees (eulerRadians : Vector3.t) : Vector3.t :=
  Vector3.mk (fmul (Vector3.x eulerRadians) RAD2DEG)
             (fmul (Vector3.y eulerRadians) RAD2DEG)
             (fmul (Vector3.z eulerRadians) RAD2DEG).

(** The entry [SetHitbox] logs for a null geometry. *)
Definition nullGeometryWarning : LogLevel * string :=
  (LOG_WARN, "Called with null geometry"%string).

(** The shape [SetHitbox] attaches for geometry [g] on an Entity whose model
    identifier is [id]. *)
Definition attachedShape (id : ModelID) (g : PxGeometry) : PxShape :=
  mkShape g (GetModelMaterial id) f0_02 f0.

Definition isRender (c : Call) : bool :=
  match c with CallRender => true | _ => false end.

(** [SetHitbox(nullptr)] *)
Definition isNullAttach (c : Call) : bool :=
  match c with CallSetHitbox None => true | _ => false end.

(** [SetHitbox] with a geometry. *)
Definition isAttach (c : Call) : bool :=
  match c with CallSetHitbox (Some _) => true | _ => false end.

(** How many calls of a run satisfy [f]. *)
Fixpoint tally (f : Call -> bool) (cs : list Call) : nat :=
  match cs with
  | [] => 0%nat
  | c :: cs' => ((if f c then 1 else 0) + tally f cs')%nat
  end.

(** One [SetHitbox] call per geometry of [gs], in order. *)
Definition attachAll (gs : list PxGeometry) : list Call :=
  map (fun g => CallSetHitbox (Some g)) gs.

(** ** The call monad, one step at a time *)

Lemma bind_Some {A B : Type} (c : M A) (f : A -> M B) env a env' :
  c env = Some (a, env') -> (c ≫= f) env = f a env'.
Proof. intros Hc. unfold mbind, M_bind. now rewrite Hc. Qed.

Lemma bind_None {A B : Type} (c : M A) (f : A -> M B) env :
  c env = None -> (c ≫= f) env = None.
Proof. intros Hc. unfold mbind, M_bind. now rewrite Hc. Qed.

Lemma readActor_live {A : Type} h (f : PxRigidDynamic -> A) env a :
  actors env !! h = Some a -> readActor h f env = Some (f a, env).
Proof. intros Ha. unfold readActor. now rewrite Ha. Qed.

Lemma writeActor_live h f env a :
  actors env !! h = Some a ->
  writeActor h f env = Some (tt, set_actors (<[h := f a]> (actors env)) env).
Proof. intros Ha. unfold writeActor. now rewrite Ha. Qed.

Lemma hitbox_validated e : hitbox (validated e) = hitbox e.
Proof. unfold validated. repeat case_match; reflexivity. Qed.

Lemma modelID_validated e : modelID (validated e) = modelID e.
Proof. unfold validated. repeat case_match; reflexivity. Qed.

Lemma lookup_snoc {A : Type} (l : list A) (x : A) :
  (l ++ [x]) !! length l = Some x.
Proof. now apply list_lookup_middle. Qed.

Lemma insert_snoc {A : Type} (l : list A) (x y : A) :
  <[length l := y]> (l ++ [x]) = l ++ [y].
Proof.
  rewrite insert_app_r_alt by reflexivity.
  now rewrite Nat.sub_diag.
Qed.

(** Steps 3 and 4 of [SetHitbox] on a live actor. *)
Lemma SetHitbox_tail g e e1 h a env :
  actors env !! h = Some a ->
  modelID e1 = modelID e ->
  mass e1 = mass (validated e) ->
  (shape ← createExclusiveShape h g (GetModelMaterial (modelID e1));
   setContactOffset shape f0_02;;
   setRestOffset shape f0;;
   setMassAndUpdateInertia h (mass e1);;
   setLinearVelocity h (PxVec3.splat f0);;
   setAngularVelocity h (PxVec3.splat f0);;
   setSleepThreshold h f0_2;;
   mret e1) env
  = Some (e1, set_actors (<[h := outfitted g e a]> (actors env)) env).
Proof.
  intros Ha -> ->.
  unfold createExclusiveShape, setContactOffset, setRestOffset, writeShape,
    setMassAndUpdateInertia, setLinearVelocity, setAngularVelocity,
    setSleepThreshold, writeActor, mbind, M_bind, mret, M_ret.
  rewrite Ha. cbn.
  repeat (rewrite ?lookup_insert_eq, ?insert_insert_eq, ?lookup_snoc,
            ?insert_snoc; cbn).
  reflexivity.
Qed.

(** [SetHitbox] on an Entity that has no actor yet. *)
Lemma SetHitbox_create this g e env :
  hitbox e = None ->
  SetHitbox this (Some g) e env
  = Some (set_hitbox (Some (fresh (dom (actors env)))) (validated e),
          set_actors
            (<[fresh (dom (actors env)) :=
                 outfitted g e
                   (mkActor (initialPose e) (PxVec3.splat f0) (PxVec3.splat f0)
                            (Some this) [] f1 f0)]> (actors env)) env).
Proof.
  intros Hh. unfold SetHitbox. fold (validated e).
  rewrite hitbox_validated, Hh.
  set (h := fresh (dom (actors env))).
  set (a0 := mkActor (initialPose e) (PxVec3.splat f0) (PxVec3.splat f0)
                     (Some this) [] f1 f0).
  rewrite (bind_Some _ _ env (set_hitbox (Some h) (validated e))
             (set_actors (<[h := a0]> (actors env)) env)).
  - rewrite (bind_Some _ _ _ h (set_actors (<[h := a0]> (actors env)) env))
      by reflexivity.
    rewrite (SetHitbox_tail g e _ h a0).
    + cbn. now rewrite insert_insert_eq.
    + cbn. apply lookup_insert_eq.
    + cbn. apply modelID_validated.
    + reflexivity.
  - unfold createRigidDynamic, setUserData, writeActor, mbind, M_bind,
      mret, M_ret.
    fold h. cbn. rewrite lookup_insert_eq. cbn.
    now rewrite insert_insert_eq.
Qed.

(** [SetHitbox] on an Entity whose actor [a] is live. *)
Lemma SetHitbox_reuse this g e env h a :
  hitbox e = Some h ->
  actors env !! h = Some a ->
  SetHitbox this (Some g) e env
  = Some (validated e, set_actors (<[h := outfitted g e a]> (actors env)) env).
Proof.
  intros Hh Ha. unfold SetHitbox. fold (validated e).
  rewrite hitbox_validated, Hh.
  rewrite (bind_Some _ _ env (validated e) env) by reflexivity.
  rewrite hitbox_validated, Hh.
  rewrite (bind_Some _ _ env h env) by reflexivity.
  apply SetHitbox_tail; [assumption | apply modelID_validated | reflexivity].
Qed.

(** [SetHitbox] through a released actor has no result. *)
Lemma SetHitbox_dangling this g e env h :
  hitbox e = Some h ->
  actors env !! h = None ->
  SetHitbox this (Some g) e env = None.
Proof.
  intros Hh Ha. unfold SetHitbox. fold (validated e).
  rewrite hitbox_validated, Hh.
  rewrite (bind_Some _ _ env (validated e) env) by reflexivity.
  rewrite hitbox_validated, Hh.
  rewrite (bind_Some _ _ env h env) by reflexivity.
  apply bind_None. unfold createExclusiveShape. now rewrite Ha.
Qed.

Lemma SetHitbox_null this e env :
  SetHitbox this None e env
  = Some (e, mkEnv (actors env)
                   (logs env ++ [(LOG_WARN, "Called with null geometry"%string)])
                   (renderBuffer env)).
Proof. reflexivity. Qed.

(** ** [PhysicsUpdate] and [Sync], case by case *)

Lemma PhysicsUpdate_null e env :
  hitbox e = None -> PhysicsUpdate e env = Some (e, env).
Proof. intros Hh. unfold PhysicsUpdate. now rewrite Hh. Qed.

Lemma PhysicsUpdate_live e env h a :
  hitbox e = Some h ->
  actors env !! h = Some a ->
  PhysicsUpdate e env = Some (pulled e a, env).
Proof.
  intros Hh Ha. unfold PhysicsUpdate. rewrite Hh.
  rewrite (bind_Some _ _ env (globalPose a) env)
    by now apply readActor_live.
  rewrite (bind_Some _ _ env (linearVelocity a) env)
    by now apply readActor_live.
  unfold pulled. now rewrite Hh.
Qed.

Lemma PhysicsUpdate_dangling e env h :
  hitbox e = Some h ->
  actors env !! h = None ->
  PhysicsUpdate e env = None.
Proof.
  intros Hh Ha. unfold PhysicsUpdate. rewrite Hh.
  apply bind_None. unfold getGlobalPose, readActor. now rewrite Ha.
Qed.

Lemma Sync_null e env : hitbox e = None -> Sync e env = Some (e, env).
Proof. intros Hh. unfold Sync. now rewrite Hh. Qed.

Lemma Sync_live e env h a :
  hitbox e = Some h ->
  actors env !! h = Some a ->
  Sync e env = Some (e, set_actors (<[h := pushed e a]> (actors env)) env).
Proof.
  intros Hh Ha. unfold Sync. rewrite Hh.
  unfold setGlobalPose, setLinearVelocity, writeActor, mbind, M_bind, mret, M_ret.
  rewrite Ha. cbn. rewrite lookup_insert_eq. cbn.
  now rewrite insert_insert_eq.
Qed.

Lemma Sync_dangling e env h :
  hitbox e = Some h ->
  actors env !! h = None ->
  Sync e env = None.
Proof.
  intros Hh Ha. unfold Sync. rewrite Hh.
  apply bind_None. unfold setGlobalPose, writeActor. now rewrite Ha.
Qed.

Lemma Render_total e env :
  exists env', Render e env = Some (e, env') /\ actors env' = actors env.
Proof.
  unfold Render. destruct (model e); eexists; split; reflexivity.
Qed.

Lemma pulled_pulled e a : pulled (pulled e a) a = pulled e a.
Proof. reflexivity. Qed.

Lemma Vector3_eta v : Vector3.mk (Vector3.x v) (Vector3.y v) (Vector3.z v) = v.
Proof. now destruct v. Qed.

Lemma Quaternion_eta q :
  Quaternion.mk (Quaternion.x q) (Quaternion.y q) (Quaternion.z q)
                (Quaternion.w q) = q.
Proof. now destruct q. Qed.

(** ** Floats against zero *)

Lemma fle_false_not_nan_pos m :
  fle m f0 = false -> is_nan m = false -> flt f0 m = true.
Proof. destruct m as [s | s | | s p e]; try destruct s; cbn; congruence. Qed.

(** ** What step 1 of [SetHitbox] does to the Entity *)

Lemma mass_validated e :
  mass (validated e) = if fle (mass e) f0 then f1 else mass e.
Proof. unfold validated. repeat case_match; cbn in *; congruence. Qed.

Lemma position_validated e :
  position (validated e)
  = if isfinite (Vector3.x (position e)) then position e
    else Vector3.mk f0 f0 f0.
Proof. unfold validated. repeat case_match; cbn in *; congruence. Qed.

Lemma validated_frame e :
  worldMatrix (validated e) = worldMatrix e /\
  rotationQuat (validated e) = rotationQuat e /\
  rotation (validated e) = rotation e /\
  scale (validated e) = scale e /\
  velocity (validated e) = velocity e /\
  model (validated e) = model e /\
  modelID (validated e) = modelID e.
Proof. unfold validated. repeat case_match; cbn; repeat split. Qed.

Lemma mass_validated_not_le e : fle (mass (validated e)) f0 = false.
Proof.
  rewrite mass_validated. destruct (fle (mass e) f0) eqn:Hm; [reflexivity | exact Hm].
Qed.

(** [SetHitbox] with a geometry has a result whenever the Entity's actor is
    live or absent, and the result is the one of the two lemmas above. *)
Lemma SetHitbox_total this g e env :
  hitbox_ok e env ->
  exists h a,
    SetHitbox this (Some g) e env
    = Some (set_hitbox (Some h) (validated e),
            set_actors (<[h := outfitted g e a]> (actors env)) env) /\
    (hitbox e = Some h /\ actors env !! h = Some a \/
     hitbox e = None /\ h = fresh (dom (actors env)) /\
     a = mkActor (initialPose e) (PxVec3.splat f0) (PxVec3.splat f0)
                 (Some this) [] f1 f0).
Proof.
  unfold hitbox_ok. intros Hok.
  destruct (hitbox e) as [h|] eqn:Hh.
  - destruct Hok as [a Ha]. exists h, a. split; [| left; auto].
    rewrite (SetHitbox_reuse this g e env h a Hh Ha).
    f_equal. f_equal.
    destruct (validated e) eqn:Hv. unfold set_hitbox. cbn.
    f_equal. rewrite <- Hh, <- hitbox_validated, Hv. reflexivity.
  - eexists _, _. split; [| right; eauto].
    apply SetHitbox_create. exact Hh.
Qed.

(** ** The actor reference over a run of calls *)

Lemma live_after (env env' : Env) (h : ActorRef) :
  dom (actors env') = dom (actors env) ->
  is_Some (actors env !! h) -> is_Some (actors env' !! h).
Proof. intros Hd Hs. apply elem_of_dom. rewrite Hd. now apply elem_of_dom. Qed.

Lemma call_keeps_body this c e env h :
  hitbox e = Some h ->
  is_Some (actors env !! h) ->
  exists e' env',
    call this c e env = Some (e', env') /\
    hitbox e' = Some h /\
    dom (actors env') = dom (actors env).
Proof.
  intros Hh [a Ha].
  destruct c as [ | | | | | [g|]]; cbn [call].
  - exists (pulled e a), env.
    split; [now apply (PhysicsUpdate_live e env h a) | auto].
  - eexists _, _. split; [now apply (Sync_live e env h a) |].
    split; [exact Hh |]. cbn. now apply dom_insert_lookup_L.
  - destruct (Render_total e env) as (env' & Hr & Hact).
    exists e, env'. now rewrite Hact.
  - exists e, env. auto.
  - exists e, env. auto.
  - eexists _, _. split; [now apply (SetHitbox_reuse this g e env h a) |].
    split; [now rewrite hitbox_validated |].
    cbn. now apply dom_insert_lookup_L.
  - eexists _, _. split; [apply SetHitbox_null | auto].
Qed.

Lemma calls_keep_body this cs : forall e env h,
  hitbox e = Some h ->
  is_Some (actors env !! h) ->
  exists e' env',
    calls this cs e env = Some (e', env') /\
    hitbox e' = Some h /\
    dom (actors env') = dom (actors env).
Proof.
  induction cs as [| c cs IH]; intros e env h Hh Hlive; cbn [calls].
  - exists e, env. auto.
  - destruct (call_keeps_body this c e env h Hh Hlive) as (e1 & env1 & Hc & Hh1 & Hd1).
    destruct (IH e1 env1 h Hh1 (live_after env env1 h Hd1 Hlive))
      as (e2 & env2 & Hcs & Hh2 & Hd2).
    exists e2, env2. rewrite (bind_Some _ _ _ _ _ Hc).
    split; [exact Hcs |]. split; [exact Hh2 | congruence].
Qed.

Lemma call_no_body this c e env :
  hitbox e = None ->
  exists e' env',
    call this c e env = Some (e', env') /\
    (hitbox e' = None /\ actors env' = actors env \/
     exists h, hitbox e' = Some h /\ (h ∉ dom (actors env)) /\
               dom (actors env') = {[h]} ∪ dom (actors env)).
Proof.
  intros Hh.
  destruct c as [ | | | | | [g|]]; cbn [call].
  - exists e, env. split; [now apply PhysicsUpdate_null | auto].
  - exists e, env. split; [now apply Sync_null | auto].
  - destruct (Render_total e env) as (env' & Hr & Hact). exists e, env'. auto.
  - exists e, env. auto.
  - exists e, env. auto.
  - eexists _, _. split; [now apply SetHitbox_create |].
    right. exists (fresh (dom (actors env))).
    split; [reflexivity |]. split; [apply is_fresh |].
    cbn. apply dom_insert_L.
  - eexists _, _. split; [apply SetHitbox_null | auto].
Qed.

Lemma calls_at_most_one_body this cs : forall e env,
  hitbox e = None ->
  exists e' env',
    calls this cs e env = Some (e', env') /\
    (hitbox e' = None /\ actors env' = actors env \/
     exists h, hitbox e' = Some h /\ (h ∉ dom (actors env)) /\
               dom (actors env') = {[h]} ∪ dom (actors env)).
Proof.
  induction cs as [| c cs IH]; intros e env Hh; cbn [calls].
  - exists e, env. auto.
  - destruct (call_no_body this c e env Hh)
      as (e1 & env1 & Hc & [[Hh1 Hact] | (h & Hh1 & Hfresh & Hd1)]);
      rewrite (bind_Some _ _ _ _ _ Hc).
    + destruct (IH e1 env1 Hh1) as (e2 & env2 & Hcs & Hres).
      exists e2, env2. split; [exact Hcs |]. now rewrite <- Hact.
    + assert (Hlive : is_Some (actors env1 !! h)).
      { apply elem_of_dom. rewrite Hd1. apply elem_of_union_l.
        now apply elem_of_singleton. }
      destruct (calls_keep_body this cs e1 env1 h Hh1 Hlive)
        as (e2 & env2 & Hcs & Hh2 & Hd2).
      exists e2, env2. split; [exact Hcs |].
      right. exists h. split; [exact Hh2 |]. split; [exact Hfresh | congruence].
Qed.

(** [~Entity] releases the actor the Entity owns. *)
Lemma Entity_dtor_releases e env h :
  hitbox e = Some h ->
  is_Some (actors env !! h) ->
  exists env', Entity_dtor e env = Some (tt, env') /\
               dom (actors env') = dom (actors env) ∖ {[h]}.
Proof.
  intros Hh [a Ha]. unfold Entity_dtor, release. rewrite Hh, Ha.
  eexists. split; [reflexivity |]. cbn. apply dom_delete_L.
Qed.

(** ** The claims *)

(** C1.  An Entity whose [hitbox] is null is left as it is by
    [PhysicsUpdate] and by [Sync]: both return the same Entity, field for
    field, and the same actor store, log and render buffer. *)
Theorem no_body_sync_is_noop e env :
  hitbox e = None ->
  PhysicsUpdate e env = Some (e, env) /\ Sync e env = Some (e, env).
Proof.
  intros Hh. split; [now apply PhysicsUpdate_null | now apply Sync_null].
Qed.

(** C3.  [SetHitbox] with a null geometry logs one warning and returns: the
    Entity is the one passed in, [hitbox] included, the actor store (hence
    every body and every shape) and the render buffer are unchanged. *)
Theorem SetHitbox_null_geometry_aborts this e env :
  exists env',
    SetHitbox this None e env = Some (e, env') /\
    logs env' = logs env ++ [(LOG_WARN, "Called with null geometry"%string)] /\
    actors env' = actors env /\
    renderBuffer env' = renderBuffer env.
Proof. eexists. split; [apply SetHitbox_null | auto]. Qed.

(** C4.  One actor per Entity.  (1) [SetHitbox] on an Entity without an actor
    creates one under a handle no live actor has, and only that one.
    (2) [SetHitbox] on an Entity with a live actor keeps the handle, creates
    no actor and appends one shape to the existing actor's shapes.
    (3) Over any run of method calls the handle, once set, stays the same and
    no actor is created.  (4) Over any run of method calls on a freshly
    constructed Entity, at most one actor is ever added to the store, and it
    is the one [hitbox] names. *)
Theorem one_body_per_Entity this :
  (forall g e env,
     hitbox e = None ->
     exists e' env' h,
       SetHitbox this (Some g) e env = Some (e', env') /\
       hitbox e' = Some h /\ (h ∉ dom (actors env)) /\
       dom (actors env') = {[h]} ∪ dom (actors env)) /\
  (forall g e env h a,
     hitbox e = Some h ->
     actors env !! h = Some a ->
     exists e' env' a',
       SetHitbox this (Some g) e env = Some (e', env') /\
       hitbox e' = Some h /\
       dom (actors env') = dom (actors env) /\
       actors env' !! h = Some a' /\
       shapes a' = shapes a ++ [mkShape g (GetModelMaterial (modelID e)) f0_02 f0]) /\
  (forall cs e env h,
     hitbox e = Some h ->
     is_Some (actors env !! h) ->
     exists e' env',
       calls this cs e env = Some (e', env') /\
       hitbox e' = Some h /\
       dom (actors env') = dom (actors env)) /\
  (forall cs uninit pos id env,
     exists e' env',
       calls this cs (Entity_ctor uninit pos id) env = Some (e', env') /\
       (hitbox e' = None /\ actors env' = actors env \/
        exists h, hitbox e' = Some h /\ (h ∉ dom (actors env)) /\
                  dom (actors env') = {[h]} ∪ dom (actors env))).
Proof.
  repeat split.
  - intros g e env Hh. eexists _, _, _.
    split; [now apply SetHitbox_create |].
    split; [reflexivity |]. split; [apply is_fresh | cbn; apply dom_insert_L].
  - intros g e env h a Hh Ha. eexists _, _, _.
    split; [now apply (SetHitbox_reuse this g e env h a) |].
    split; [now rewrite hitbox_validated |].
    split; [cbn; now apply dom_insert_lookup_L |].
    split; [cbn; apply lookup_insert_eq | reflexivity].
  - intros cs e env h. apply calls_keep_body.
  - intros cs uninit pos id env. now apply calls_at_most_one_body.
Qed.

(** C5.  For an Entity with a live actor, [Sync] followed at once by
    [PhysicsUpdate] gives back the position, the quaternion and the velocity
    that were pushed; the store keeps a pose and a velocity as written. *)
Theorem Sync_then_PhysicsUpdate e env h a :
  hitbox e = Some h ->
  actors env !! h = Some a ->
  exists env1 e2,
    Sync e env = Some (e, env1) /\
    PhysicsUpdate e env1 = Some (e2, env1) /\
    position e2 = position e /\
    rotationQuat e2 = rotationQuat e /\
    velocity e2 = velocity e.
Proof.
  intros Hh Ha. eexists _, _.
  split; [now apply (Sync_live e env h a) |].
  split.
  - apply (PhysicsUpdate_live _ _ h (pushed e a)); [exact Hh |].
    cbn. apply lookup_insert_eq.
  - cbn. now rewrite !Vector3_eta, Quaternion_eta.
Qed.

(** C6.  [PhysicsUpdate] does not write the actor store, so with no
    simulation step in between two calls in a row are one call.  When the
    Entity's actor is live or absent, the second call returns the Entity the
    first one returned: position, quaternion, Euler angles, world matrix and
    velocity are the same after two calls as after one. *)
Theorem PhysicsUpdate_idempotent e env :
  (e1 ← PhysicsUpdate e; PhysicsUpdate e1) env = PhysicsUpdate e env /\
  (hitbox_ok e env ->
   exists e1 e2,
     PhysicsUpdate e env = Some (e1, env) /\
     PhysicsUpdate e1 env = Some (e2, env) /\
     position e2 = position e1 /\
     rotationQuat e2 = rotationQuat e1 /\
     rotation e2 = rotation e1 /\
     worldMatrix e2 = worldMatrix e1 /\
     velocity e2 = velocity e1 /\
     e2 = e1).
Proof.
  split.
  - destruct (hitbox e) as [h|] eqn:Hh.
    + destruct (actors env !! h) as [a|] eqn:Ha.
      * rewrite (PhysicsUpdate_live e env h a Hh Ha).
        rewrite (bind_Some _ _ env (pulled e a) env)
          by apply (PhysicsUpdate_live e env h a Hh Ha).
        rewrite <- (pulled_pulled e a) at 2.
        now apply (PhysicsUpdate_live (pulled e a) env h a).
      * rewrite (PhysicsUpdate_dangling e env h Hh Ha).
        apply bind_None. now apply (PhysicsUpdate_dangling e env h).
    + rewrite (PhysicsUpdate_null e env Hh).
      rewrite (bind_Some _ _ env e env) by now apply PhysicsUpdate_null.
      now apply PhysicsUpdate_null.
  - unfold hitbox_ok. intros Hok.
    destruct (hitbox e) as [h|] eqn:Hh.
    + destruct Hok as [a Ha]. exists (pulled e a), (pulled e a).
      split; [now apply (PhysicsUpdate_live e env h a) |].
      split; [| repeat split].
      rewrite <- (pulled_pulled e a) at 2.
      now apply (PhysicsUpdate_live (pulled e a) env h a).
    + exists e, e.
      split; [now apply PhysicsUpdate_null |].
      split; [now apply PhysicsUpdate_null | repeat split].
Qed.

(** C7.  After [PhysicsUpdate] on an Entity with a live actor, the world
    matrix has the pose's position in (m12, m13, m14), 1 in m15, 0 in m3, m7
    and m11, and the rotation matrix of the pose's quaternion in its
    upper-left 3x3 block; the Entity's [scale] has no part in it.  For the
    identity quaternion the block is the identity, and for the position
    (1, 2, 3) the translation column is (1, 2, 3). *)
Theorem PhysicsUpdate_worldMatrix e env h a :
  hitbox e = Some h ->
  actors env !! h = Some a ->
  exists e',
    PhysicsUpdate e env = Some (e', env) /\
    translation (worldMatrix e') = PxTransform.p (globalPose a) /\
    Matrix.m15 (worldMatrix e') = f1 /\
    rotationBlock (worldMatrix e') = PxMat33.ofQuat (PxTransform.q (globalPose a)) /\
    Matrix.m3 (worldMatrix e') = f0 /\
    Matrix.m7 (worldMatrix e') = f0 /\
    Matrix.m11 (worldMatrix e') = f0 /\
    (forall s, exists e'',
       PhysicsUpdate (set_scale s e) env = Some (e'', env) /\
       worldMatrix e'' = worldMatrix e') /\
    (PxTransform.q (globalPose a) = PxQuat.identity ->
     rotationBlock (worldMatrix e') = PxMat33.identity) /\
    (PxTransform.p (globalPose a) = PxVec3.mk (f32 1 0) (f32 2 0) (f32 3 0) ->
     translation (worldMatrix e') = PxVec3.mk (f32 1 0) (f32 2 0) (f32 3 0)).
Proof.
  intros Hh Ha. exists (pulled e a).
  split; [now apply (PhysicsUpdate_live e env h a) |].
  assert (Ht : translation (worldMatrix (pulled e a)) = PxTransform.p (globalPose a)).
  { destruct a as [[q [x y z]] ? ? ? ? ? ?]. reflexivity. }
  assert (Hr : rotationBlock (worldMatrix (pulled e a))
               = PxMat33.ofQuat (PxTransform.q (globalPose a))).
  { reflexivity. }
  split; [exact Ht |]. split; [reflexivity |]. split; [exact Hr |].
  split; [reflexivity |]. split; [reflexivity |]. split; [reflexivity |].
  split; [| split].
  - intros s. exists (pulled (set_scale s e) a).
    split; [now apply (PhysicsUpdate_live _ env h a) | reflexivity].
  - intros Hq. rewrite Hr, Hq. reflexivity.
  - intros Hp. now rewrite Ht.
Qed.

(** C8, as the code has it.  After [SetHitbox] with a geometry the Entity's
    mass is 1.0 if it was <= 0 before and is unchanged otherwise; it is
    never <= 0, and it is strictly positive whenever it was not NaN before.
    The actor's mass is set from this value. *)
Theorem SetHitbox_mass_sanitized this g e env :
  hitbox_ok e env ->
  exists e' env' h a',
    SetHitbox this (Some g) e env = Some (e', env') /\
    mass e' = (if fle (mass e) f0 then f1 else mass e) /\
    fle (mass e') f0 = false /\
    (is_nan (mass e) = false -> flt f0 (mass e') = true) /\
    hitbox e' = Some h /\
    actors env' !! h = Some a' /\
    bodyMass a' = mass e'.
Proof.
  intros Hok.
  destruct (SetHitbox_total this g e env Hok) as (h & a & Hset & _).
  eexists _, _, h, _. split; [exact Hset |]. cbn.
  split; [apply mass_validated |].
  split; [apply mass_validated_not_le |].
  split.
  - intros Hnan. apply fle_false_not_nan_pos; [apply mass_validated_not_le |].
    rewrite mass_validated. now destruct (fle (mass e) f0).
  - split; [reflexivity |]. split; [apply lookup_insert_eq | reflexivity].
Qed.

(** C9.  The constructor stores the position it is given, leaves the velocity
    at (0,0,0), the quaternion at (0,0,0,1), the scale at (1,1,1) and the mass
    at 10.0, which is positive, points [model] at what the model manager
    returns for the identifier, keeps the identifier, and leaves [hitbox]
    null. *)
Theorem Entity_ctor_postcondition uninit pos id :
  position (Entity_ctor uninit pos id) = pos /\
  velocity (Entity_ctor uninit pos id) = Vector3.mk f0 f0 f0 /\
  rotationQuat (Entity_ctor uninit pos id) = Quaternion.mk f0 f0 f0 f1 /\
  scale (Entity_ctor uninit pos id) = Vector3.mk f1 f1 f1 /\
  mass (Entity_ctor uninit pos id) = f10 /\
  flt f0 (mass (Entity_ctor uninit pos id)) = true /\
  model (Entity_ctor uninit pos id) = Some (GetModel id) /\
  modelID (Entity_ctor uninit pos id) = id /\
  hitbox (Entity_ctor uninit pos id) = None.
Proof. repeat split. Qed.

(** C10.  [SetHitbox] with a geometry leaves the quaternion, the Euler angles,
    the scale, the velocity, the world matrix, the model pointer and the
    model identifier of the Entity as they were.  The position changes only
    when the finiteness check fires, the mass only when it was <= 0, and
    [hitbox] only when it was null.  The actor's linear and angular
    velocities are zero afterwards, whatever the Entity's [velocity] is. *)
Theorem SetHitbox_frame this g e env :
  hitbox_ok e env ->
  exists e' env' h a',
    SetHitbox this (Some g) e env = Some (e', env') /\
    rotationQuat e' = rotationQuat e /\
    rotation e' = rotation e /\
    scale e' = scale e /\
    velocity e' = velocity e /\
    worldMatrix e' = worldMatrix e /\
    model e' = model e /\
    modelID e' = modelID e /\
    (position e' = position e \/
     isfinite (Vector3.x (position e)) = false /\
     position e' = Vector3.mk f0 f0 f0) /\
    (mass e' = mass e \/ fle (mass e) f0 = true /\ mass e' = f1) /\
    (hitbox e' = hitbox e \/ hitbox e = None) /\
    hitbox e' = Some h /\
    actors env' !! h = Some a' /\
    linearVelocity a' = PxVec3.splat f0 /\
    angularVelocity a' = PxVec3.splat f0.
Proof.
  intros Hok.
  destruct (SetHitbox_total this g e env Hok) as (h & a & Hset & Hcase).
  destruct (validated_frame e) as (Hw & Hq & Hr & Hs & Hv & Hm & Hid).
  eexists _, _, h, _. split; [exact Hset |]. cbn.
  repeat (split; [assumption |]).
  split.
  { rewrite position_validated.
    destruct (isfinite (Vector3.x (position e))); auto. }
  split.
  { rewrite mass_validated. destruct (fle (mass e) f0); auto. }
  split.
  { destruct Hcase as [[Hh _] | [Hh _]]; auto. }
  split; [reflexivity |]. split; [apply lookup_insert_eq | split; reflexivity].
Qed.

(** Where the finiteness check of [SetHitbox] does fire: on [position.x]. *)
Lemma SetHitbox_nonfinite_x this g e env :
  hitbox e = None ->
  isfinite (Vector3.x (position e)) = false ->
  exists e' env' h a',
    SetHitbox this (Some g) e env = Some (e', env') /\
    position e' = Vector3.mk f0 f0 f0 /\
    hitbox e' = Some h /\
    actors env' !! h = Some a' /\
    PxTransform.p (globalPose a') = PxVec3.mk f0 f0 f0.
Proof.
  intros Hh Hx. eexists _, _, _, _.
  split; [now apply SetHitbox_create |]. cbn.
  assert (Hp : position (validated e) = Vector3.mk f0 f0 f0).
  { rewrite position_validated. now rewrite Hx. }
  split; [exact Hp |]. split; [reflexivity |].
  split; [apply lookup_insert_eq |].
  cbn. unfold initialPose. now rewrite Hp.
Qed.


(** ** Beyond the claims: how the methods compose *)

Lemma Env_eta env : mkEnv (actors env) (logs env) (renderBuffer env) = env.
Proof. now destruct env. Qed.

Lemma Render_spec e env :
  Render e env
  = Some (e, mkEnv (actors env) (logs env)
                   (renderBuffer env ++
                    match model e with
                    | Some m => [(m, worldMatrix e)]
                    | None => []
                    end)).
Proof.
  unfold Render. destruct (model e); [reflexivity |].
  cbn. now rewrite app_nil_r, Env_eta.
Qed.

(** One call on an Entity whose actor is live or absent. *)
Lemma call_step this c e env :
  hitbox_ok e env ->
  exists e' env',
    call this c e env = Some (e', env') /\
    hitbox_ok e' env' /\
    model e' = model e /\
    modelID e' = modelID e /\
    (forall h, hitbox e = Some h -> hitbox e' = Some h) /\
    (hitbox e = None ->
     hitbox e' = None /\ actors env' = actors env \/
     exists h, hitbox e' = Some h /\ actors env !! h = None) /\
    (forall k, hitbox e' <> Some k -> actors env' !! k = actors env !! k) /\
    logs env' = logs env ++ (if isNullAttach c then [nullGeometryWarning] else []) /\
    renderBuffer env' =
      renderBuffer env ++
      (if isRender c
       then match model e with Some m => [(m, worldMatrix e)] | None => [] end
       else []).
Proof.
  intros Hok.
  assert (Hsame : forall env0 : Env,
            env0 = env ->
            hitbox_ok e env0 /\ model e = model e /\ modelID e = modelID e /\
            (forall h, hitbox e = Some h -> hitbox e = Some h) /\
            (hitbox e = None ->
             hitbox e = None /\ actors env0 = actors env \/
             exists h, hitbox e = Some h /\ actors env !! h = None) /\
            (forall k, hitbox e <> Some k -> actors env0 !! k = actors env !! k) /\
            logs env0 = logs env ++ [] /\
            renderBuffer env0 = renderBuffer env ++ []).
  { intros env0 ->. rewrite !app_nil_r. repeat split; auto. }
  destruct c as [ | | | | | [g|]]; cbn [call isNullAttach isRender].
  - (* PhysicsUpdate *)
    unfold hitbox_ok in Hok. destruct (hitbox e) as [h|] eqn:Hh.
    + destruct Hok as [a Ha]. exists (pulled e a), env.
      split; [now apply (PhysicsUpdate_live e env h a) |].
      rewrite !app_nil_r. unfold hitbox_ok. cbn. rewrite Hh.
      repeat split; eauto; discriminate.
    + exists e, env. split; [now apply PhysicsUpdate_null |].
      unfold hitbox_ok. rewrite Hh, !app_nil_r. repeat split; auto.
  - (* Sync *)
    unfold hitbox_ok in Hok. destruct (hitbox e) as [h|] eqn:Hh.
    + destruct Hok as [a Ha]. eexists e, _.
      split; [now apply (Sync_live e env h a) |]. cbn.
      rewrite !app_nil_r. unfold hitbox_ok. rewrite Hh. cbn.
      split; [rewrite lookup_insert_eq; eauto |].
      repeat split; auto; try discriminate.
      intros k Hk. apply lookup_insert_ne. congruence.
    + exists e, env. split; [now apply Sync_null |].
      unfold hitbox_ok. rewrite Hh, !app_nil_r. repeat split; auto.
  - (* Render *)
    eexists e, _. split; [apply Render_spec |]. cbn.
    rewrite app_nil_r. repeat split; auto.
  - exists e, env. split; [reflexivity | now apply Hsame].
  - exists e, env. split; [reflexivity | now apply Hsame].
  - (* SetHitbox with a geometry *)
    destruct (validated_frame e) as (_ & _ & _ & _ & _ & Hm & Hid).
    unfold hitbox_ok in Hok. destruct (hitbox e) as [h|] eqn:Hh.
    + destruct Hok as [a Ha]. eexists _, _.
      split; [now apply (SetHitbox_reuse this g e env h a) |]. cbn.
      rewrite !app_nil_r. unfold hitbox_ok. rewrite hitbox_validated, Hh. cbn.
      split; [rewrite lookup_insert_eq; eauto |].
      repeat split; auto; try discriminate.
      intros k Hk. apply lookup_insert_ne. congruence.
    + eexists _, _.
      split; [now apply SetHitbox_create |]. cbn.
      rewrite !app_nil_r. unfold hitbox_ok. cbn.
      split; [rewrite lookup_insert_eq; eauto |].
      repeat split; auto; try discriminate.
      * intros _. right. eexists. split; [reflexivity |].
        apply not_elem_of_dom. apply is_fresh.
      * intros k Hk. apply lookup_insert_ne. intros <-. now apply Hk.
  - (* SetHitbox(nullptr) *)
    eexists e, _. split; [apply SetHitbox_null |]. cbn.
    rewrite app_nil_r. repeat split; auto.
Qed.

(** Any run of calls on an Entity whose actor is live or absent. *)
Lemma calls_run this cs : forall e env,
  hitbox_ok e env ->
  exists e' env' entries,
    calls this cs e env = Some (e', env') /\
    hitbox_ok e' env' /\
    model e' = model e /\
    modelID e' = modelID e /\
    (forall h, hitbox e = Some h -> hitbox e' = Some h) /\
    (hitbox e = None ->
     hitbox e' = None /\ actors env' = actors env \/
     exists h, hitbox e' = Some h /\ actors env !! h = None) /\
    (forall k, hitbox e' <> Some k -> actors env' !! k = actors env !! k) /\
    logs env' = logs env ++ replicate (tally isNullAttach cs) nullGeometryWarning /\
    renderBuffer env' = renderBuffer env ++ entries /\
    length entries = match model e with
                     | Some _ => tally isRender cs
                     | None => 0%nat
                     end /\
    Forall (fun entry => model e = Some entry.1) entries.
Proof.
  induction cs as [| c cs IH]; intros e env Hok; cbn [calls tally].
  - exists e, env, []. cbn. rewrite !app_nil_r.
    repeat split; auto. now destruct (model e).
  - destruct (call_step this c e env Hok)
      as (e1 & env1 & Hc & Hok1 & Hm1 & Hid1 & Hkeep1 & Hnone1 & Hoth1 & Hlog1 & Hrb1).
    destruct (IH e1 env1 Hok1)
      as (e2 & env2 & entries & Hcs & Hok2 & Hm2 & Hid2 & Hkeep2 & Hnone2
          & Hoth2 & Hlog2 & Hrb2 & Hlen & Hall).
    exists e2, env2,
      ((if isRender c
        then match model e with Some m => [(m, worldMatrix e)] | None => [] end
        else []) ++ entries).
    rewrite (bind_Some _ _ _ _ _ Hc).
    split; [exact Hcs |]. split; [exact Hok2 |].
    split; [congruence |]. split; [congruence |].
    split; [auto |].
    split.
    { intros Hh. destruct (Hnone1 Hh) as [[Hh1 Hact1] | (h & Hh1 & Hfree)].
      - destruct (Hnone2 Hh1) as [[Hh2 Hact2] | (h & Hh2 & Hfree)].
        + left. split; [exact Hh2 | congruence].
        + right. exists h. split; [exact Hh2 | now rewrite <- Hact1].
      - right. exists h. split; [now apply Hkeep2 | exact Hfree]. }
    split.
    { intros k Hk. rewrite (Hoth2 k Hk). apply Hoth1.
      intros Hh1. apply Hk. now apply Hkeep2. }
    split.
    { rewrite Hlog2, Hlog1, <- app_assoc. f_equal.
      destruct (isNullAttach c); reflexivity. }
    split.
    { rewrite Hrb2, Hrb1, <- app_assoc. reflexivity. }
    split.
    { rewrite length_app, Hlen, Hm1.
      destruct (isRender c), (model e); reflexivity. }
    apply Forall_app. split.
    + destruct (isRender c); [| constructor].
      destruct (model e); repeat constructor.
    + rewrite <- Hm1. exact Hall.
Qed.

Lemma Entity_dtor_live e env h a :
  hitbox e = Some h ->
  actors env !! h = Some a ->
  Entity_dtor e env = Some (tt, set_actors (delete h (actors env)) env).
Proof. intros Hh Ha. unfold Entity_dtor, release. now rewrite Hh, Ha. Qed.

Lemma Entity_dtor_null e env :
  hitbox e = None -> Entity_dtor e env = Some (tt, env).
Proof. intros Hh. unfold Entity_dtor. now rewrite Hh. Qed.

(** X1.  The destructor releases the Entity's own actor and nothing else:
    afterwards that handle is no longer live, every other actor is as it
    was, and the log and the render buffer are untouched.  An Entity without
    an actor releases nothing. *)
Theorem Entity_dtor_releases_only_own e env :
  hitbox_ok e env ->
  exists env',
    Entity_dtor e env = Some (tt, env') /\
    (forall h, hitbox e = Some h -> actors env' !! h = None) /\
    (forall k, hitbox e <> Some k -> actors env' !! k = actors env !! k) /\
    (hitbox e = None -> env' = env) /\
    logs env' = logs env /\
    renderBuffer env' = renderBuffer env.
Proof.
  unfold hitbox_ok. intros Hok.
  destruct (hitbox e) as [h|] eqn:Hh.
  - destruct Hok as [a Ha]. eexists.
    split; [now apply (Entity_dtor_live e env h a) |]. cbn.
    split; [intros h' [= <-]; apply lookup_delete_eq |].
    split; [intros k Hk; apply lookup_delete_ne; congruence |].
    split; [discriminate | auto].
  - exists env. split; [now apply Entity_dtor_null |].
    split; [discriminate | auto].
Qed.

(** X2.  Construct, call any methods in any order, destroy: the actor store
    is exactly what it was before the Entity was constructed.  No actor of
    the Entity outlives it and no other actor is changed. *)
Theorem lifetime_leaves_store_as_found this cs uninit pos id env :
  exists e' env' env'',
    calls this cs (Entity_ctor uninit pos id) env = Some (e', env') /\
    Entity_dtor e' env' = Some (tt, env'') /\
    actors env'' = actors env.
Proof.
  destruct (calls_run this cs (Entity_ctor uninit pos id) env I)
    as (e' & env' & entries & Hcs & Hok & _ & _ & _ & Hnone & Hoth & _).
  unfold hitbox_ok in Hok.
  destruct (Hnone eq_refl) as [[Hh Hact] | (h & Hh & Hfree)].
  - exists e', env', env'.
    split; [exact Hcs |]. split; [now apply Entity_dtor_null | exact Hact].
  - rewrite Hh in Hok. destruct Hok as [a Ha].
    eexists e', env', _.
    split; [exact Hcs |].
    split; [now apply (Entity_dtor_live e' env' h a) |]. cbn.
    apply map_eq. intros k. destruct (decide (k = h)) as [-> | Hne].
    + rewrite lookup_delete_eq. symmetry. exact Hfree.
    + rewrite lookup_delete_ne by congruence. apply Hoth. congruence.
Qed.

(** X3.  No run of calls on one Entity touches an actor that is not its own:
    an actor live before the run under a handle the Entity does not hold is
    the same afterwards, and the Entity never takes that handle over. *)
Theorem calls_leave_other_actors this cs e env k a :
  hitbox_ok e env ->
  hitbox e <> Some k ->
  actors env !! k = Some a ->
  exists e' env',
    calls this cs e env = Some (e', env') /\
    hitbox e' <> Some k /\
    actors env' !! k = Some a.
Proof.
  intros Hok Hk Ha.
  destruct (calls_run this cs e env Hok)
    as (e' & env' & entries & Hcs & _ & _ & _ & Hkeep & Hnone & Hoth & _).
  assert (Hk' : hitbox e' <> Some k).
  { destruct (hitbox e) as [h|] eqn:Hh.
    - rewrite (Hkeep h eq_refl). exact Hk.
    - destruct (Hnone eq_refl) as [[Hh' _] | (h & Hh' & Hfree)];
        rewrite Hh'; [discriminate |].
      intros [= ->]. congruence. }
  exists e', env'. split; [exact Hcs |]. split; [exact Hk' |].
  now rewrite (Hoth k Hk').
Qed.

(** X4.  Over any run of calls the log gains one warning per
    [SetHitbox(nullptr)] and nothing else: no other method and no successful
    [SetHitbox] logs. *)
Theorem log_one_warning_per_null_geometry this cs e env :
  hitbox_ok e env ->
  exists e' env',
    calls this cs e env = Some (e', env') /\
    logs env' = logs env ++ replicate (tally isNullAttach cs) nullGeometryWarning.
Proof.
  intros Hok.
  destruct (calls_run this cs e env Hok)
    as (e' & env' & entries & Hcs & _ & _ & _ & _ & _ & _ & Hlog & _).
  now exists e', env'.
Qed.

(** X5.  From the constructor on, the render buffer only grows at its end,
    by one entry per [Render] call, and every entry carries the model the
    constructor resolved: [model] is never null and never re-resolved. *)
Theorem render_buffer_one_entry_per_Render this cs uninit pos id env :
  exists e' env' entries,
    calls this cs (Entity_ctor uninit pos id) env = Some (e', env') /\
    renderBuffer env' = renderBuffer env ++ entries /\
    length entries = tally isRender cs /\
    Forall (fun entry => entry.1 = GetModel id) entries /\
    model e' = Some (GetModel id).
Proof.
  destruct (calls_run this cs (Entity_ctor uninit pos id) env I)
    as (e' & env' & entries & Hcs & _ & Hm & _ & _ & _ & _ & _ & Hrb & Hlen & Hall).
  exists e', env', entries.
  split; [exact Hcs |]. split; [exact Hrb |]. split; [exact Hlen |].
  split; [| exact Hm].
  eapply Forall_impl; [exact Hall |]. cbn. now intros entry [= ->].
Qed.

(** X6.  [Sync] writes the actor's pose and linear velocity and nothing else:
    angular velocity, user data, shapes, mass and sleep threshold of the actor
    stay, as do all other actors, the log and the render buffer. *)
Theorem Sync_writes_pose_and_velocity_only e env h a :
  hitbox e = Some h ->
  actors env !! h = Some a ->
  exists env' a',
    Sync e env = Some (e, env') /\
    actors env' !! h = Some a' /\
    PxTransform.p (globalPose a')
      = PxVec3.mk (Vector3.x (position e)) (Vector3.y (position e))
                  (Vector3.z (position e)) /\
    PxTransform.q (globalPose a')
      = PxQuat.mk (Quaternion.x (rotationQuat e)) (Quaternion.y (rotationQuat e))
                  (Quaternion.z (rotationQuat e)) (Quaternion.w (rotationQuat e)) /\
    linearVelocity a'
      = PxVec3.mk (Vector3.x (velocity e)) (Vector3.y (velocity e))
                  (Vector3.z (velocity e)) /\
    angularVelocity a' = angularVelocity a /\
    userData a' = userData a /\
    shapes a' = shapes a /\
    bodyMass a' = bodyMass a /\
    sleepThreshold a' = sleepThreshold a /\
    (forall k, k <> h -> actors env' !! k = actors env !! k) /\
    logs env' = logs env /\
    renderBuffer env' = renderBuffer env.
Proof.
  intros Hh Ha. eexists _, (pushed e a).
  split; [now apply (Sync_live e env h a) |]. cbn.
  split; [apply lookup_insert_eq |].
  repeat split. intros k Hk. apply lookup_insert_ne. congruence.
Qed.

(** X7.  Pushing twice is pushing once: a second [Sync] right after the first
    leaves the actor store as the first left it. *)
Theorem Sync_idempotent e env :
  (e1 ← Sync e; Sync e1) env = Sync e env.
Proof.
  destruct (hitbox e) as [h|] eqn:Hh.
  - destruct (actors env !! h) as [a|] eqn:Ha.
    + rewrite (Sync_live e env h a Hh Ha).
      erewrite bind_Some by apply (Sync_live e env h a Hh Ha).
      rewrite (Sync_live e _ h (pushed e a) Hh) by apply lookup_insert_eq.
      cbn. now rewrite insert_insert_eq.
    + rewrite (Sync_dangling e env h Hh Ha).
      apply bind_None. now apply (Sync_dangling e env h).
  - rewrite (Sync_null e env Hh).
    erewrite bind_Some by now apply Sync_null.
    now apply Sync_null.
Qed.

Lemma pushed_pulled e a : pushed (pulled e a) a = a.
Proof.
  destruct a as [[[qx qy qz qw] [px py pz]] [vx vy vz] w u s m t]. reflexivity.
Qed.

(** X8.  Pull, then push straight back: the actor store, the log and the
    render buffer are what they were.  Pushing what was just pulled moves
    nothing. *)
Theorem PhysicsUpdate_then_Sync e env :
  hitbox_ok e env ->
  exists e1,
    PhysicsUpdate e env = Some (e1, env) /\
    Sync e1 env = Some (e1, env).
Proof.
  unfold hitbox_ok. intros Hok. destruct (hitbox e) as [h|] eqn:Hh.
  - destruct Hok as [a Ha]. exists (pulled e a).
    split; [now apply (PhysicsUpdate_live e env h a) |].
    rewrite (Sync_live (pulled e a) env h a Hh Ha).
    rewrite pushed_pulled, (insert_id _ _ _ Ha).
    unfold set_actors. now rewrite Env_eta.
  - exists e. split; [now apply PhysicsUpdate_null | now apply Sync_null].
Qed.

(** X9.  [PhysicsUpdate] never writes the scale, the mass, the model pointer,
    the model identifier or [hitbox], and never writes outside the Entity.
    With an actor, the Euler angles it leaves are the degrees of
    [QuaternionToEuler] at the quaternion it leaves, whatever both were
    before. *)
Theorem PhysicsUpdate_frame e env :
  hitbox_ok e env ->
  exists e',
    PhysicsUpdate e env = Some (e', env) /\
    scale e' = scale e /\
    mass e' = mass e /\
    model e' = model e /\
    modelID e' = modelID e /\
    hitbox e' = hitbox e /\
    (hitbox e <> None ->
     rotation e' = toDegrees (QuaternionToEuler (rotationQuat e'))).
Proof.
  unfold hitbox_ok. intros Hok. destruct (hitbox e) as [h|] eqn:Hh.
  - destruct Hok as [a Ha]. exists (pulled e a).
    split; [now apply (PhysicsUpdate_live e env h a) |].
    cbn. repeat split; auto.
  - exists e. split; [now apply PhysicsUpdate_null |].
    repeat split; auto. intros Hne. now destruct Hne.
Qed.

(** X10.  The first [SetHitbox] of an Entity creates an actor that points back
    at the Entity through [userData], stands at the Entity's position as
    step 1 left it, with the identity orientation whatever the Entity's
    quaternion is, and carries exactly one shape: the geometry passed, the
    material of the Entity's model, contact offset 0.02, rest offset 0.  The
    sleep threshold is 0.2 and nothing is logged or rendered. *)
Theorem SetHitbox_first_body this g e env :
  hitbox e = None ->
  exists e' env' h a,
    SetHitbox this (Some g) e env = Some (e', env') /\
    hitbox e' = Some h /\
    actors env' !! h = Some a /\
    userData a = Some this /\
    PxTransform.q (globalPose a) = PxQuat.identity /\
    PxTransform.p (globalPose a)
      = PxVec3.mk (Vector3.x (position e')) (Vector3.y (position e'))
                  (Vector3.z (position e')) /\
    shapes a = [attachedShape (modelID e) g] /\
    sleepThreshold a = f0_2 /\
    logs env' = logs env /\
    renderBuffer env' = renderBuffer env.
Proof.
  intros Hh. eexists _, _, _, _.
  split; [now apply SetHitbox_create |]. cbn.
  split; [reflexivity |]. split; [apply lookup_insert_eq |].
  repeat split.
Qed.

(** X11.  [SetHitbox] on an Entity that already has an actor does not move
    the actor and does not touch its [userData]: the pose stays even when
    step 1 has just reset the Entity's position.  The actor's mass is set
    again from the Entity's mass and its sleep threshold to 0.2; nothing is
    logged or rendered. *)
Theorem SetHitbox_again_keeps_pose this g e env h a :
  hitbox e = Some h ->
  actors env !! h = Some a ->
  exists e' env' a',
    SetHitbox this (Some g) e env = Some (e', env') /\
    actors env' !! h = Some a' /\
    globalPose a' = globalPose a /\
    userData a' = userData a /\
    bodyMass a' = mass e' /\
    sleepThreshold a' = f0_2 /\
    (forall k, k <> h -> actors env' !! k = actors env !! k) /\
    logs env' = logs env /\
    renderBuffer env' = renderBuffer env.
Proof.
  intros Hh Ha. eexists _, _, _.
  split; [now apply (SetHitbox_reuse this g e env h a) |]. cbn.
  split; [apply lookup_insert_eq |].
  repeat split. intros k Hk. apply lookup_insert_ne. congruence.
Qed.

Lemma attachAll_live this gs : forall e env h a,
  hitbox e = Some h ->
  actors env !! h = Some a ->
  exists e' env' a',
    calls this (attachAll gs) e env = Some (e', env') /\
    hitbox e' = Some h /\
    actors env' !! h = Some a' /\
    shapes a' = shapes a ++ map (attachedShape (modelID e)) gs.
Proof.
  induction gs as [| g gs IH]; intros e env h a Hh Ha; cbn [attachAll map calls].
  - exists e, env, a. rewrite app_nil_r. auto.
  - pose proof (SetHitbox_reuse this g e env h a Hh Ha) as Hset.
    destruct (IH (validated e)
                 (set_actors (<[h := outfitted g e a]> (actors env)) env)
                 h (outfitted g e a))
      as (e' & env' & a' & Hcs & Hh' & Ha' & Hsh).
    { now rewrite hitbox_validated. }
    { cbn. apply lookup_insert_eq. }
    exists e', env', a'. cbn [call]. rewrite (bind_Some _ _ _ _ _ Hset).
    split; [exact Hcs |]. split; [exact Hh' |]. split; [exact Ha' |].
    rewrite Hsh, modelID_validated. cbn. now rewrite <- app_assoc.
Qed.

(** X12.  Shapes pile up: [SetHitbox] called once per geometry of a list on an
    Entity without an actor leaves one actor carrying one shape per call, in
    call order, none replaced. *)
Theorem SetHitbox_accumulates_shapes this g gs e env :
  hitbox e = None ->
  exists e' env' h a',
    calls this (attachAll (g :: gs)) e env = Some (e', env') /\
    hitbox e' = Some h /\
    actors env !! h = None /\
    actors env' !! h = Some a' /\
    shapes a' = map (attachedShape (modelID e)) (g :: gs).
Proof.
  intros Hh. cbn [attachAll map calls call].
  pose proof (SetHitbox_create this g e env Hh) as Hset.
  set (h := fresh (dom (actors env))) in *.
  match type of Hset with _ = Some (?e1, ?env1) =>
    destruct (attachAll_live this gs e1 env1 h
                (outfitted g e (mkActor (initialPose e) (PxVec3.splat f0)
                                        (PxVec3.splat f0) (Some this) [] f1 f0)))
      as (e' & env' & a' & Hcs & Hh' & Ha' & Hsh)
  end.
  { reflexivity. }
  { cbn. apply lookup_insert_eq. }
  exists e', env', h, a'. rewrite (bind_Some _ _ _ _ _ Hset).
  split; [exact Hcs |]. split; [exact Hh' |].
  split; [apply not_elem_of_dom, is_fresh |]. split; [exact Ha' |].
  rewrite Hsh. cbn. now rewrite modelID_validated.
Qed.

Lemma validated_fixed e :
  isfinite (Vector3.x (position e)) = true ->
  fle (mass e) f0 = false ->
  validated e = e.
Proof.
  intros Hx Hm. unfold validated. rewrite Hx. cbn [negb]. now rewrite Hm.
Qed.

Lemma validated_idempotent e : validated (validated e) = validated e.
Proof.
  apply validated_fixed; [| apply mass_validated_not_le].
  rewrite position_validated.
  destruct (isfinite (Vector3.x (position e))) eqn:Hx; [exact Hx | reflexivity].
Qed.

Lemma validated_set_hitbox h e :
  validated (set_hitbox h e) = set_hitbox h (validated e).
Proof.
  unfold validated. cbn [position set_hitbox].
  destruct (negb (isfinite (Vector3.x (position e))));
    cbn [mass set_position set_hitbox];
    destruct (fle (mass e) f0); reflexivity.
Qed.

(** X13.  One [SetHitbox] settles the Entity: a second call, with any
    geometry, returns the Entity the first one returned.  Position, mass and
    [hitbox] are only ever corrected once. *)
Theorem SetHitbox_settles_Entity this g1 g2 e env :
  hitbox_ok e env ->
  exists e1 env1 env2,
    SetHitbox this (Some g1) e env = Some (e1, env1) /\
    SetHitbox this (Some g2) e1 env1 = Some (e1, env2).
Proof.
  intros Hok.
  destruct (SetHitbox_total this g1 e env Hok) as (h & a & Hset & _).
  eexists _, _, _. split; [exact Hset |].
  rewrite (SetHitbox_reuse this g2 _ _ h (outfitted g1 e a)).
  - rewrite validated_set_hitbox, validated_idempotent. reflexivity.
  - reflexivity.
  - cbn. apply lookup_insert_eq.
Qed.

(** X14.  Attaching a body and pulling overwrites the Entity's velocity with
    zero; when the body is new, the Entity's quaternion becomes the identity
    and its position is the one [SetHitbox] left. *)
Theorem SetHitbox_then_PhysicsUpdate this g e env :
  hitbox_ok e env ->
  exists e1 env1 e2,
    SetHitbox this (Some g) e env = Some (e1, env1) /\
    PhysicsUpdate e1 env1 = Some (e2, env1) /\
    velocity e2 = Vector3.mk f0 f0 f0 /\
    (hitbox e = None ->
     rotationQuat e2 = Quaternion.mk f0 f0 f0 f1 /\
     position e2 = position e1).
Proof.
  intros Hok.
  destruct (SetHitbox_total this g e env Hok) as (h & a & Hset & Hcase).
  eexists _, _, _. split; [exact Hset |].
  split.
  - apply (PhysicsUpdate_live _ _ h (outfitted g e a)); [reflexivity |].
    cbn. apply lookup_insert_eq.
  - split; [reflexivity |]. intros Hh.
    destruct Hcase as [[Hh' _] | (_ & _ & ->)]; [congruence |].
    split; [reflexivity |]. cbn. now rewrite Vector3_eta.
Qed.

Lemma call_without_body this c e env :
  hitbox e = None ->
  isAttach c = false ->
  exists env', call this c e env = Some (e, env') /\ actors env' = actors env.
Proof.
  intros Hh Hc. destruct c as [ | | | | | [g|]]; cbn [call]; try discriminate.
  - exists env. split; [now apply PhysicsUpdate_null | reflexivity].
  - exists env. split; [now apply Sync_null | reflexivity].
  - eexists. split; [apply Render_spec | reflexivity].
  - exists env. split; reflexivity.
  - exists env. split; reflexivity.
  - eexists. split; [apply SetHitbox_null | reflexivity].
Qed.

Lemma calls_without_body this cs : forall e env,
  hitbox e = None ->
  tally isAttach cs = 0%nat ->
  exists env', calls this cs e env = Some (e, env') /\ actors env' = actors env.
Proof.
  induction cs as [| c cs IH]; intros e env Hh Hcs; cbn [calls tally] in *.
  - exists env. split; reflexivity.
  - destruct (isAttach c) eqn:Hc; [discriminate |]. cbn in Hcs.
    destruct (call_without_body this c e env Hh Hc) as (env1 & Hcall & Hact1).
    destruct (IH e env1 Hh Hcs) as (env2 & Hrest & Hact2).
    exists env2. rewrite (bind_Some _ _ _ _ _ Hcall).
    split; [exact Hrest | congruence].
Qed.

(** X15.  Without a successful [SetHitbox] no method changes the Entity: over
    any run of [PhysicsUpdate], [Sync], [Render], [Update], [Init] and
    [SetHitbox(nullptr)] calls an Entity without an actor keeps every field,
    and no actor is created or changed. *)
Theorem no_body_no_change this cs e env :
  hitbox e = None ->
  tally isAttach cs = 0%nat ->
  exists env', calls this cs e env = Some (e, env') /\ actors env' = actors env.
Proof. apply calls_without_body. Qed.

(** X16.  A teleport reaches the world matrix: after [Sync] and
    [PhysicsUpdate] the translation column is the Entity's position, the
    rotation block is the rotation matrix of the Entity's quaternion, and the
    Euler angles are recomputed from that quaternion. *)
Theorem teleport_reaches_worldMatrix e env h a :
  hitbox e = Some h ->
  actors env !! h = Some a ->
  exists env1 e2,
    Sync e env = Some (e, env1) /\
    PhysicsUpdate e env1 = Some (e2, env1) /\
    translation (worldMatrix e2)
      = PxVec3.mk (Vector3.x (position e)) (Vector3.y (position e))
                  (Vector3.z (position e)) /\
    rotationBlock (worldMatrix e2)
      = PxMat33.ofQuat
          (PxQuat.mk (Quaternion.x (rotationQuat e)) (Quaternion.y (rotationQuat e))
                     (Quaternion.z (rotationQuat e)) (Quaternion.w (rotationQuat e))) /\
    Matrix.m15 (worldMatrix e2) = f1 /\
    rotation e2 = toDegrees (QuaternionToEuler (rotationQuat e)).
Proof.
  intros Hh Ha. eexists _, _.
  split; [now apply (Sync_live e env h a) |].
  split.
  - apply (PhysicsUpdate_live _ _ h (pushed e a)); [exact Hh |].
    cbn. apply lookup_insert_eq.
  - cbn. rewrite Quaternion_eta. repeat split.
Qed.

(** X17.  [Render] right after [PhysicsUpdate] submits the matrix of the
    actor's current pose, with the Entity's model, at the end of the render
    buffer; actors and log are untouched. *)
Theorem PhysicsUpdate_then_Render e env h a m :
  hitbox e = Some h ->
  actors env !! h = Some a ->
  model e = Some m ->
  exists e1 env2 submitted,
    PhysicsUpdate e env = Some (e1, env) /\
    Render e1 env = Some (e1, env2) /\
    renderBuffer env2 = renderBuffer env ++ [(m, submitted)] /\
    translation submitted = PxTransform.p (globalPose a) /\
    rotationBlock submitted = PxMat33.ofQuat (PxTransform.q (globalPose a)) /\
    actors env2 = actors env /\
    logs env2 = logs env.
Proof.
  intros Hh Ha Hm. eexists (pulled e a), _, _.
  split; [now apply (PhysicsUpdate_live e env h a) |].
  split; [apply Render_spec |]. cbn. rewrite Hm.
  split; [reflexivity |].
  split; [destruct a as [[q [x y z]] ? ? ? ? ? ?]; reflexivity |].
  repeat split.
Qed.

(** X18.  An Entity that never gets a body never gets a world matrix: the
    constructor leaves [worldMatrix] as the storage had it, no method without
    an actor writes it, and [Render] submits exactly that, wherever the Entity
    was constructed. *)
Theorem Render_without_body_submits_uninitialised this cs uninit pos id env :
  tally isAttach cs = 0%nat ->
  exists env1 env2,
    calls this cs (Entity_ctor uninit pos id) env
      = Some (Entity_ctor uninit pos id, env1) /\
    Render (Entity_ctor uninit pos id) env1
      = Some (Entity_ctor uninit pos id, env2) /\
    renderBuffer env2 = renderBuffer env1 ++ [(GetModel id, uninit)].
Proof.
  intros Hcs.
  destruct (calls_without_body this cs (Entity_ctor uninit pos id) env eq_refl Hcs)
    as (env1 & Hrun & _).
  eexists env1, _. split; [exact Hrun |].
  split; [apply Render_spec | reflexivity].
Qed.

(** X19.  The simulation is authoritative: what [PhysicsUpdate] leaves in
    position, quaternion, Euler angles, world matrix and velocity depends on
    the actor alone.  Two Entities holding the same live actor come out equal
    in these fields, whatever gameplay code had written into them. *)
Theorem PhysicsUpdate_overwrites_gameplay_writes e1 e2 env h :
  hitbox e1 = Some h ->
  hitbox e2 = Some h ->
  is_Some (actors env !! h) ->
  exists e1' e2',
    PhysicsUpdate e1 env = Some (e1', env) /\
    PhysicsUpdate e2 env = Some (e2', env) /\
    position e1' = position e2' /\
    rotationQuat e1' = rotationQuat e2' /\
    rotation e1' = rotation e2' /\
    worldMatrix e1' = worldMatrix e2' /\
    velocity e1' = velocity e2'.
Proof.
  intros Hh1 Hh2 [a Ha]. exists (pulled e1 a), (pulled e2 a).
  split; [now apply (PhysicsUpdate_live e1 env h a) |].
  split; [now apply (PhysicsUpdate_live e2 env h a) |].
  repeat split.
Qed.
End Entities.

(** ** The literals, bit for bit *)

Example f1_is_0x3F800000 : f1 = S754_finite false 8388608 (-23).
Proof. reflexivity. Qed.

Example f10_is_0x41200000 : f10 = S754_finite false 10485760 (-20).
Proof. reflexivity. Qed.

Example f0_02_is_0x3CA3D70A : f0_02 = S754_finite false 10737418 (-29).
Proof. reflexivity. Qed.

Example f0_2_is_0x3E4CCCCD : f0_2 = S754_finite false 13421773 (-26).
Proof. reflexivity. Qed.

Example identity_quaternion_gives_identity_matrix :
  PxMat33.ofQuat PxQuat.identity = PxMat33.identity.
Proof. reflexivity. Qed.

(** Construct at (1,2,3), attach a body, pull: the Entity is back at (1,2,3)
    with an identity rotation block, and the store holds one actor with one
    shape and mass 10. *)
Example attach_then_pull :
  exists e' (env' : @Env nat unit nat) a',
    calls sampleGetModelMaterial sampleQuaternionToEuler 1%N
          [CallSetHitbox (Some tt); CallPhysicsUpdate]
          (newEntity sampleGetModel (Vector3.mk (f32 1 0) (f32 2 0) (f32 3 0)) 7%nat)
          emptyEnv = Some (e', env') /\
    position e' = Vector3.mk (f32 1 0) (f32 2 0) (f32 3 0) /\
    translation (worldMatrix e') = PxVec3.mk (f32 1 0) (f32 2 0) (f32 3 0) /\
    rotationBlock (worldMatrix e') = PxMat33.identity /\
    hitbox e' = Some 0%nat /\
    actors env' !! 0%nat = Some a' /\
    length (shapes a') = 1%nat /\
    bodyMass a' = f10 /\
    userData a' = Some 1%N.
Proof.
  eexists _, _, _.
  split; [vm_compute; reflexivity |].
  repeat split; vm_compute; reflexivity.
Qed.

(** ** The claims at sample inputs *)

Lemma no_body_sync_is_noop_witness :
  let e := newEntity sampleGetModel (Vector3.mk f0 f0 f0) 7%nat in
  let env : @Env nat unit nat := emptyEnv in
  hitbox e = None /\
  PhysicsUpdate sampleQuaternionToEuler e env = Some (e, env) /\
  Sync e env = Some (e, env).
Proof.
  split; [reflexivity |].
  apply (no_body_sync_is_noop sampleQuaternionToEuler). reflexivity.
Defined.

(** C2.  The finiteness check of [SetHitbox] reads [position.x] alone.  An
    Entity at (0, +inf, 0) keeps that position, and its actor is created
    there, not at the origin. *)
Theorem SetHitbox_nonfinite_y_not_corrected :
  let e := newEntity sampleGetModel (Vector3.mk f0 (S754_infinity false) f0) 7%nat in
  let env : @Env nat unit nat := emptyEnv in
  isfinite (Vector3.y (position e)) = false /\
  exists e' env' h a',
    SetHitbox sampleGetModelMaterial 1%N (Some tt) e env = Some (e', env') /\
    position e' = Vector3.mk f0 (S754_infinity false) f0 /\
    hitbox e' = Some h /\
    actors env' !! h = Some a' /\
    PxTransform.p (globalPose a') = PxVec3.mk f0 (S754_infinity false) f0.
Proof.
  split; [reflexivity |]. eexists _, _, _, _.
  split; [apply SetHitbox_create; reflexivity |].
  split; [reflexivity |]. split; [reflexivity |].
  split; [apply lookup_insert_eq | reflexivity].
Qed.

Lemma one_body_per_Entity_witness :
  let e0 := newEntity sampleGetModel (Vector3.mk f0 f0 f0) 7%nat in
  let e1 := set_hitbox (Some 0%nat) e0 in
  let a : @PxRigidDynamic unit nat :=
    mkActor (PxTransform.ofPosition (PxVec3.splat f0)) (PxVec3.splat f0)
            (PxVec3.splat f0) None [] f1 f0 in
  let env0 : @Env nat unit nat := emptyEnv in
  let env1 : @Env nat unit nat :=
    oneActorEnv (PxTransform.ofPosition (PxVec3.splat f0)) (PxVec3.splat f0) in
  (hitbox e0 = None /\
   exists e' env' h,
     SetHitbox sampleGetModelMaterial 1%N (Some tt) e0 env0 = Some (e', env') /\
     hitbox e' = Some h /\ (h ∉ dom (actors env0)) /\
     dom (actors env') = {[h]} ∪ dom (actors env0)) /\
  (hitbox e1 = Some 0%nat /\ actors env1 !! 0%nat = Some a /\
   exists e' env' a',
     SetHitbox sampleGetModelMaterial 1%N (Some tt) e1 env1 = Some (e', env') /\
     hitbox e' = Some 0%nat /\
     dom (actors env') = dom (actors env1) /\
     actors env' !! 0%nat = Some a' /\
     shapes a' = shapes a ++ [mkShape tt (sampleGetModelMaterial (modelID e1)) f0_02 f0]) /\
  (is_Some (actors env1 !! 0%nat) /\
   exists e' env',
     calls sampleGetModelMaterial sampleQuaternionToEuler 1%N
           [CallSetHitbox (Some tt); CallSync; CallPhysicsUpdate; CallRender]
           e1 env1 = Some (e', env') /\
     hitbox e' = Some 0%nat /\
     dom (actors env') = dom (actors env1)).
Proof.
  intros e0 e1 a env0 env1.
  pose proof (one_body_per_Entity (PxGeometry := unit) sampleGetModel
                sampleGetModelMaterial sampleQuaternionToEuler 1%N)
    as (Hcreate & Hreuse & Hkeep & _).
  split; [| split].
  - split; [reflexivity |]. apply Hcreate. reflexivity.
  - split; [reflexivity |]. split; [reflexivity |].
    apply Hreuse; reflexivity.
  - assert (Hlive : is_Some (actors env1 !! 0%nat)) by (eexists; reflexivity).
    split; [exact Hlive |]. apply Hkeep; [reflexivity | exact Hlive].
Defined.

Lemma Sync_then_PhysicsUpdate_witness :
  let e := set_hitbox (Some 0%nat)
             (newEntity sampleGetModel (Vector3.mk (f32 1 0) (f32 2 0) (f32 3 0)) 7%nat) in
  let a : @PxRigidDynamic unit nat :=
    mkActor (PxTransform.ofPosition (PxVec3.splat f0)) (PxVec3.splat f1)
            (PxVec3.splat f0) None [] f1 f0 in
  let env : @Env nat unit nat :=
    oneActorEnv (PxTransform.ofPosition (PxVec3.splat f0)) (PxVec3.splat f1) in
  hitbox e = Some 0%nat /\
  actors env !! 0%nat = Some a /\
  exists env1 e2,
    Sync e env = Some (e, env1) /\
    PhysicsUpdate sampleQuaternionToEuler e env1 = Some (e2, env1) /\
    position e2 = position e /\
    rotationQuat e2 = rotationQuat e /\
    velocity e2 = velocity e.
Proof.
  intros e a env.
  split; [reflexivity |]. split; [reflexivity |].
  apply (Sync_then_PhysicsUpdate sampleQuaternionToEuler e env 0%nat a);
    reflexivity.
Defined.

Lemma PhysicsUpdate_idempotent_witness :
  let e := set_hitbox (Some 0%nat)
             (newEntity sampleGetModel (Vector3.mk f0 f0 f0) 7%nat) in
  let env : @Env nat unit nat :=
    oneActorEnv (PxTransform.ofPosition (PxVec3.mk (f32 1 0) (f32 2 0) (f32 3 0)))
                (PxVec3.splat f1) in
  hitbox_ok e env /\
  exists e1 e2,
    PhysicsUpdate sampleQuaternionToEuler e env = Some (e1, env) /\
    PhysicsUpdate sampleQuaternionToEuler e1 env = Some (e2, env) /\
    position e2 = position e1 /\
    rotationQuat e2 = rotationQuat e1 /\
    rotation e2 = rotation e1 /\
    worldMatrix e2 = worldMatrix e1 /\
    velocity e2 = velocity e1 /\
    e2 = e1.
Proof.
  intros e env.
  assert (Hok : hitbox_ok e env) by (eexists; reflexivity).
  split; [exact Hok |].
  apply (proj2 (PhysicsUpdate_idempotent sampleQuaternionToEuler e env) Hok).
Defined.

Lemma PhysicsUpdate_worldMatrix_witness :
  let e := set_hitbox (Some 0%nat)
             (newEntity sampleGetModel (Vector3.mk f0 f0 f0) 7%nat) in
  let t := PxTransform.ofPosition (PxVec3.mk (f32 1 0) (f32 2 0) (f32 3 0)) in
  let a : @PxRigidDynamic unit nat :=
    mkActor t (PxVec3.splat f0) (PxVec3.splat f0) None [] f1 f0 in
  let env : @Env nat unit nat := oneActorEnv t (PxVec3.splat f0) in
  hitbox e = Some 0%nat /\
  actors env !! 0%nat = Some a /\
  PxTransform.q (globalPose a) = PxQuat.identity /\
  PxTransform.p (globalPose a) = PxVec3.mk (f32 1 0) (f32 2 0) (f32 3 0) /\
  exists e',
    PhysicsUpdate sampleQuaternionToEuler e env = Some (e', env) /\
    translation (worldMatrix e') = PxVec3.mk (f32 1 0) (f32 2 0) (f32 3 0) /\
    Matrix.m15 (worldMatrix e') = f1 /\
    rotationBlock (worldMatrix e') = PxMat33.identity.
Proof.
  intros e t a env.
  split; [reflexivity |]. split; [reflexivity |].
  split; [reflexivity |]. split; [reflexivity |].
  destruct (PhysicsUpdate_worldMatrix sampleQuaternionToEuler e env 0%nat a
              eq_refl eq_refl)
    as (e' & Hpull & _ & Hm15 & _ & _ & _ & _ & _ & Hid & Hpos).
  exists e'. split; [exact Hpull |].
  split; [apply Hpos; reflexivity |].
  split; [exact Hm15 | apply Hid; reflexivity].
Defined.

Lemma SetHitbox_mass_sanitized_witness :
  let e := set_mass (SFopp f10) (newEntity sampleGetModel (Vector3.mk f0 f0 f0) 7%nat) in
  let env : @Env nat unit nat := emptyEnv in
  hitbox_ok e env /\
  is_nan (mass e) = false /\
  exists e' env' h a',
    SetHitbox sampleGetModelMaterial 1%N (Some tt) e env = Some (e', env') /\
    mass e' = f1 /\
    flt f0 (mass e') = true /\
    hitbox e' = Some h /\
    actors env' !! h = Some a' /\
    bodyMass a' = f1.
Proof.
  intros e env.
  assert (Hok : hitbox_ok e env) by exact I.
  split; [exact Hok |]. split; [reflexivity |].
  destruct (SetHitbox_mass_sanitized sampleGetModelMaterial 1%N tt e env Hok)
    as (e' & env' & h & a' & Hset & Hmass & _ & Hpos & Hh & Ha & Hbody).
  exists e', env', h, a'.
  split; [exact Hset |]. split; [exact Hmass |].
  split; [apply Hpos; reflexivity |].
  split; [exact Hh |]. split; [exact Ha |].
  now rewrite Hbody.
Defined.

(** C8 as written fails for a NaN mass: [mass <= 0.0f] is false for NaN, so
    [SetHitbox] keeps it, and NaN is not greater than zero. *)
Lemma SetHitbox_nan_mass_not_positive :
  let e := set_mass S754_nan (newEntity sampleGetModel (Vector3.mk f0 f0 f0) 7%nat) in
  let env : @Env nat unit nat := emptyEnv in
  exists e' env' h a',
    SetHitbox sampleGetModelMaterial 1%N (Some tt) e env = Some (e', env') /\
    mass e' = S754_nan /\
    flt f0 (mass e') = false /\
    hitbox e' = Some h /\
    actors env' !! h = Some a' /\
    bodyMass a' = S754_nan.
Proof.
  eexists _, _, _, _.
  split; [apply SetHitbox_create; reflexivity |].
  split; [reflexivity |]. split; [reflexivity |]. split; [reflexivity |].
  split; [apply lookup_insert_eq | reflexivity].
Qed.

Lemma SetHitbox_frame_witness :
  let e := newEntity sampleGetModel (Vector3.mk S754_nan (f32 2 0) (f32 3 0)) 7%nat in
  let env : @Env nat unit nat := emptyEnv in
  hitbox_ok e env /\
  exists e' env' h a',
    SetHitbox sampleGetModelMaterial 1%N (Some tt) e env = Some (e', env') /\
    rotationQuat e' = rotationQuat e /\
    rotation e' = rotation e /\
    scale e' = scale e /\
    velocity e' = velocity e /\
    worldMatrix e' = worldMatrix e /\
    model e' = model e /\
    modelID e' = modelID e /\
    (position e' = position e \/
     isfinite (Vector3.x (position e)) = false /\
     position e' = Vector3.mk f0 f0 f0) /\
    (mass e' = mass e \/ fle (mass e) f0 = true /\ mass e' = f1) /\
    (hitbox e' = hitbox e \/ hitbox e = None) /\
    hitbox e' = Some h /\
    actors env' !! h = Some a' /\
    linearVelocity a' = PxVec3.splat f0 /\
    angularVelocity a' = PxVec3.splat f0.
Proof.
  intros e env.
  assert (Hok : hitbox_ok e env) by exact I.
  split; [exact Hok |].
  apply (SetHitbox_frame sampleGetModelMaterial 1%N tt e env Hok).
Defined.

(** ** The further properties at sample inputs *)

Lemma Entity_dtor_releases_only_own_witness :
  let e := set_hitbox (Some 0%nat)
             (newEntity sampleGetModel (Vector3.mk f0 f0 f0) 7%nat) in
  let env : @Env nat unit nat :=
    oneActorEnv (PxTransform.ofPosition (PxVec3.splat f0)) (PxVec3.splat f0) in
  hitbox_ok e env /\
  exists env',
    Entity_dtor e env = Some (tt, env') /\
    actors env' !! 0%nat = None /\
    logs env' = logs env /\
    renderBuffer env' = renderBuffer env.
Proof.
  intros e env.
  assert (Hok : hitbox_ok e env) by (eexists; reflexivity).
  split; [exact Hok |].
  destruct (Entity_dtor_releases_only_own e env Hok)
    as (env' & Hd & Hgone & _ & _ & Hlog & Hrb).
  exists env'. split; [exact Hd |].
  split; [apply Hgone; reflexivity | auto].
Defined.

Lemma calls_leave_other_actors_witness :
  let e := newEntity sampleGetModel (Vector3.mk f0 f0 f0) 7%nat in
  let a : @PxRigidDynamic unit nat :=
    mkActor (PxTransform.ofPosition (PxVec3.splat f1)) (PxVec3.splat f0)
            (PxVec3.splat f0) None [] f1 f0 in
  let env : @Env nat unit nat :=
    oneActorEnv (PxTransform.ofPosition (PxVec3.splat f1)) (PxVec3.splat f0) in
  hitbox_ok e env /\
  hitbox e <> Some 0%nat /\
  actors env !! 0%nat = Some a /\
  exists e' env',
    calls sampleGetModelMaterial sampleQuaternionToEuler 1%N
          [CallSetHitbox (Some tt); CallSync; CallPhysicsUpdate] e env
      = Some (e', env') /\
    hitbox e' <> Some 0%nat /\
    actors env' !! 0%nat = Some a.
Proof.
  intros e a env.
  assert (Hne : hitbox e <> Some 0%nat) by discriminate.
  split; [exact I |]. split; [exact Hne |]. split; [reflexivity |].
  apply (calls_leave_other_actors sampleGetModelMaterial
           sampleQuaternionToEuler 1%N _ e env 0%nat a I Hne eq_refl).
Defined.

Lemma log_one_warning_per_null_geometry_witness :
  let e := newEntity sampleGetModel (Vector3.mk f0 f0 f0) 7%nat in
  let env : @Env nat unit nat := emptyEnv in
  hitbox_ok e env /\
  exists e' env',
    calls sampleGetModelMaterial sampleQuaternionToEuler 1%N
          [CallSetHitbox None; CallSetHitbox (Some tt); CallSetHitbox None] e env
      = Some (e', env') /\
    logs env' = [nullGeometryWarning; nullGeometryWarning].
Proof.
  intros e env. split; [exact I |].
  apply (log_one_warning_per_null_geometry sampleGetModelMaterial
           sampleQuaternionToEuler 1%N
           [CallSetHitbox None; CallSetHitbox (Some tt); CallSetHitbox None]
           e env I).
Defined.

Lemma Sync_writes_pose_and_velocity_only_witness :
  let e := set_hitbox (Some 0%nat)
             (newEntity sampleGetModel (Vector3.mk (f32 1 0) (f32 2 0) (f32 3 0)) 7%nat) in
  let a : @PxRigidDynamic unit nat :=
    mkActor (PxTransform.ofPosition (PxVec3.splat f0)) (PxVec3.splat f1)
            (PxVec3.splat f0) None [] f1 f0 in
  let env : @Env nat unit nat :=
    oneActorEnv (PxTransform.ofPosition (PxVec3.splat f0)) (PxVec3.splat f1) in
  hitbox e = Some 0%nat /\
  actors env !! 0%nat = Some a /\
  exists env' a',
    Sync e env = Some (e, env') /\
    actors env' !! 0%nat = Some a' /\
    PxTransform.p (globalPose a') = PxVec3.mk (f32 1 0) (f32 2 0) (f32 3 0) /\
    linearVelocity a' = PxVec3.splat f0 /\
    angularVelocity a' = angularVelocity a /\
    shapes a' = shapes a /\
    bodyMass a' = bodyMass a.
Proof.
  intros e a env. split; [reflexivity |]. split; [reflexivity |].
  destruct (Sync_writes_pose_and_velocity_only e env 0%nat a eq_refl eq_refl)
    as (env' & a' & Hs & Ha' & Hp & _ & Hv & Hw & _ & Hsh & Hm & _).
  exists env', a'. split; [exact Hs |]. split; [exact Ha' |].
  split; [exact Hp |]. split; [exact Hv |]. auto.
Defined.

Lemma PhysicsUpdate_then_Sync_witness :
  let e := set_hitbox (Some 0%nat)
             (newEntity sampleGetModel (Vector3.mk f0 f0 f0) 7%nat) in
  let env : @Env nat unit nat :=
    oneActorEnv (PxTransform.ofPosition (PxVec3.mk (f32 1 0) (f32 2 0) (f32 3 0)))
                (PxVec3.splat f1) in
  hitbox_ok e env /\
  exists e1,
    PhysicsUpdate sampleQuaternionToEuler e env = Some (e1, env) /\
    Sync e1 env = Some (e1, env).
Proof.
  intros e env.
  assert (Hok : hitbox_ok e env) by (eexists; reflexivity).
  split; [exact Hok |].
  apply (PhysicsUpdate_then_Sync sampleQuaternionToEuler e env Hok).
Defined.

Lemma PhysicsUpdate_frame_witness :
  let e := set_hitbox (Some 0%nat)
             (newEntity sampleGetModel (Vector3.mk f0 f0 f0) 7%nat) in
  let env : @Env nat unit nat :=
    oneActorEnv (PxTransform.ofPosition (PxVec3.mk (f32 1 0) (f32 2 0) (f32 3 0)))
                (PxVec3.splat f1) in
  hitbox_ok e env /\
  hitbox e <> None /\
  exists e',
    PhysicsUpdate sampleQuaternionToEuler e env = Some (e', env) /\
    scale e' = scale e /\
    mass e' = mass e /\
    hitbox e' = hitbox e /\
    rotation e' = toDegrees (sampleQuaternionToEuler (rotationQuat e')).
Proof.
  intros e env.
  assert (Hok : hitbox_ok e env) by (eexists; reflexivity).
  assert (Hne : hitbox e <> None) by discriminate.
  split; [exact Hok |]. split; [exact Hne |].
  destruct (PhysicsUpdate_frame sampleQuaternionToEuler e env Hok)
    as (e' & Hp & Hs & Hm & _ & _ & Hh & Hr).
  exists e'. split; [exact Hp |]. split; [exact Hs |]. split; [exact Hm |].
  split; [exact Hh | exact (Hr Hne)].
Defined.

Lemma SetHitbox_first_body_witness :
  let e := newEntity sampleGetModel (Vector3.mk (f32 1 0) (f32 2 0) (f32 3 0)) 7%nat in
  let env : @Env nat unit nat := emptyEnv in
  hitbox e = None /\
  exists e' env' h a,
    SetHitbox sampleGetModelMaterial 1%N (Some tt) e env = Some (e', env') /\
    hitbox e' = Some h /\
    actors env' !! h = Some a /\
    userData a = Some 1%N /\
    PxTransform.q (globalPose a) = PxQuat.identity /\
    shapes a = [attachedShape sampleGetModelMaterial 7%nat tt] /\
    sleepThreshold a = f0_2.
Proof.
  intros e env. split; [reflexivity |].
  destruct (SetHitbox_first_body sampleGetModelMaterial 1%N tt e env eq_refl)
    as (e' & env' & h & a & Hs & Hh & Ha & Hu & Hq & _ & Hsh & Ht & _).
  exists e', env', h, a. auto 10.
Defined.

Lemma SetHitbox_again_keeps_pose_witness :
  let e := set_hitbox (Some 0%nat)
             (newEntity sampleGetModel (Vector3.mk S754_nan f0 f0) 7%nat) in
  let a : @PxRigidDynamic unit nat :=
    mkActor (PxTransform.ofPosition (PxVec3.mk (f32 1 0) (f32 2 0) (f32 3 0)))
            (PxVec3.splat f1) (PxVec3.splat f0) None [] f1 f0 in
  let env : @Env nat unit nat :=
    oneActorEnv (PxTransform.ofPosition (PxVec3.mk (f32 1 0) (f32 2 0) (f32 3 0)))
                (PxVec3.splat f1) in
  hitbox e = Some 0%nat /\
  actors env !! 0%nat = Some a /\
  exists e' env' a',
    SetHitbox sampleGetModelMaterial 1%N (Some tt) e env = Some (e', env') /\
    actors env' !! 0%nat = Some a' /\
    globalPose a' = globalPose a /\
    userData a' = userData a /\
    bodyMass a' = mass e' /\
    sleepThreshold a' = f0_2.
Proof.
  intros e a env. split; [reflexivity |]. split; [reflexivity |].
  destruct (SetHitbox_again_keeps_pose sampleGetModelMaterial 1%N tt e env
              0%nat a eq_refl eq_refl)
    as (e' & env' & a' & Hs & Ha' & Hp & Hu & Hm & Ht & _).
  exists e', env', a'. auto 10.
Defined.

Lemma SetHitbox_accumulates_shapes_witness :
  let e := newEntity sampleGetModel (Vector3.mk f0 f0 f0) 7%nat in
  let env : @Env nat bool nat := emptyEnv in
  hitbox e = None /\
  exists e' env' h a',
    calls sampleGetModelMaterial sampleQuaternionToEuler 1%N
          (attachAll [true; false; true]) e env = Some (e', env') /\
    hitbox e' = Some h /\
    actors env !! h = None /\
    actors env' !! h = Some a' /\
    shapes a' = map (attachedShape sampleGetModelMaterial 7%nat) [true; false; true].
Proof.
  intros e env. split; [reflexivity |].
  apply (SetHitbox_accumulates_shapes sampleGetModelMaterial
           sampleQuaternionToEuler 1%N true [false; true] e env eq_refl).
Defined.

Lemma SetHitbox_settles_Entity_witness :
  let e := set_mass (SFopp f10)
             (newEntity sampleGetModel (Vector3.mk S754_nan f0 f0) 7%nat) in
  let env : @Env nat bool nat := emptyEnv in
  hitbox_ok e env /\
  exists e1 env1 env2,
    SetHitbox sampleGetModelMaterial 1%N (Some true) e env = Some (e1, env1) /\
    SetHitbox sampleGetModelMaterial 1%N (Some false) e1 env1 = Some (e1, env2).
Proof.
  intros e env. split; [exact I |].
  apply (SetHitbox_settles_Entity sampleGetModelMaterial 1%N true false e env I).
Defined.

Lemma SetHitbox_then_PhysicsUpdate_witness :
  let e := newEntity sampleGetModel (Vector3.mk (f32 1 0) (f32 2 0) (f32 3 0)) 7%nat in
  let env : @Env nat unit nat := emptyEnv in
  hitbox_ok e env /\
  hitbox e = None /\
  exists e1 env1 e2,
    SetHitbox sampleGetModelMaterial 1%N (Some tt) e env = Some (e1, env1) /\
    PhysicsUpdate sampleQuaternionToEuler e1 env1 = Some (e2, env1) /\
    velocity e2 = Vector3.mk f0 f0 f0 /\
    rotationQuat e2 = Quaternion.mk f0 f0 f0 f1 /\
    position e2 = position e1.
Proof.
  intros e env. split; [exact I |]. split; [reflexivity |].
  destruct (SetHitbox_then_PhysicsUpdate sampleGetModelMaterial
              sampleQuaternionToEuler 1%N tt e env I)
    as (e1 & env1 & e2 & Hs & Hp & Hv & Hfresh).
  destruct (Hfresh eq_refl) as [Hq Hpos].
  exists e1, env1, e2. auto 10.
Defined.

Lemma no_body_no_change_witness :
  let e := newEntity sampleGetModel (Vector3.mk (f32 1 0) (f32 2 0) (f32 3 0)) 7%nat in
  let env : @Env nat unit nat := emptyEnv in
  let cs := [CallPhysicsUpdate; CallSync; CallRender; CallSetHitbox None;
             CallUpdate; CallInit] in
  hitbox e = None /\
  tally isAttach cs = 0%nat /\
  exists env',
    calls sampleGetModelMaterial sampleQuaternionToEuler 1%N cs e env
      = Some (e, env') /\
    actors env' = actors env.
Proof.
  intros e env cs. split; [reflexivity |]. split; [reflexivity |].
  apply (no_body_no_change sampleGetModelMaterial sampleQuaternionToEuler 1%N
           cs e env eq_refl eq_refl).
Defined.

Lemma teleport_reaches_worldMatrix_witness :
  let e := set_hitbox (Some 0%nat)
             (newEntity sampleGetModel (Vector3.mk (f32 1 0) (f32 2 0) (f32 3 0)) 7%nat) in
  let a : @PxRigidDynamic unit nat :=
    mkActor (PxTransform.ofPosition (PxVec3.splat f0)) (PxVec3.splat f0)
            (PxVec3.splat f0) None [] f1 f0 in
  let env : @Env nat unit nat :=
    oneActorEnv (PxTransform.ofPosition (PxVec3.splat f0)) (PxVec3.splat f0) in
  hitbox e = Some 0%nat /\
  actors env !! 0%nat = Some a /\
  exists env1 e2,
    Sync e env = Some (e, env1) /\
    PhysicsUpdate sampleQuaternionToEuler e env1 = Some (e2, env1) /\
    translation (worldMatrix e2) = PxVec3.mk (f32 1 0) (f32 2 0) (f32 3 0) /\
    Matrix.m15 (worldMatrix e2) = f1.
Proof.
  intros e a env. split; [reflexivity |]. split; [reflexivity |].
  destruct (teleport_reaches_worldMatrix sampleQuaternionToEuler e env 0%nat a
              eq_refl eq_refl)
    as (env1 & e2 & Hs & Hp & Ht & _ & Hm & _).
  exists env1, e2. auto.
Defined.

Lemma PhysicsUpdate_then_Render_witness :
  let e := set_hitbox (Some 0%nat)
             (newEntity sampleGetModel (Vector3.mk f0 f0 f0) 7%nat) in
  let a : @PxRigidDynamic unit nat :=
    mkActor (PxTransform.ofPosition (PxVec3.mk (f32 1 0) (f32 2 0) (f32 3 0)))
            (PxVec3.splat f0) (PxVec3.splat f0) None [] f1 f0 in
  let env : @Env nat unit nat :=
    oneActorEnv (PxTransform.ofPosition (PxVec3.mk (f32 1 0) (f32 2 0) (f32 3 0)))
                (PxVec3.splat f0) in
  hitbox e = Some 0%nat /\
  actors env !! 0%nat = Some a /\
  model e = Some 7%nat /\
  exists e1 env2 submitted,
    PhysicsUpdate sampleQuaternionToEuler e env = Some (e1, env) /\
    Render e1 env = Some (e1, env2) /\
    renderBuffer env2 = [(7%nat, submitted)] /\
    translation submitted = PxVec3.mk (f32 1 0) (f32 2 0) (f32 3 0).
Proof.
  intros e a env.
  split; [reflexivity |]. split; [reflexivity |]. split; [reflexivity |].
  destruct (PhysicsUpdate_then_Render sampleQuaternionToEuler e env 0%nat a
              7%nat eq_refl eq_refl eq_refl)
    as (e1 & env2 & submitted & Hp & Hr & Hrb & Ht & _).
  exists e1, env2, submitted. auto.
Defined.

Lemma Render_without_body_submits_uninitialised_witness :
  let uninit := Matrix.mk f1 f1 f1 f1 f1 f1 f1 f1 f1 f1 f1 f1 f1 f1 f1 f1 in
  let e := Entity_ctor sampleGetModel uninit
                       (Vector3.mk (f32 1 0) (f32 2 0) (f32 3 0)) 7%nat in
  let env : @Env nat unit nat := emptyEnv in
  let cs := [CallPhysicsUpdate; CallSync] in
  tally isAttach cs = 0%nat /\
  exists env1 env2,
    calls sampleGetModelMaterial sampleQuaternionToEuler 1%N cs e env
      = Some (e, env1) /\
    Render e env1 = Some (e, env2) /\
    renderBuffer env2 = renderBuffer env1 ++ [(7%nat, uninit)].
Proof.
  intros uninit e env cs. split; [reflexivity |].
  apply (Render_without_body_submits_uninitialised sampleGetModel
           sampleGetModelMaterial sampleQuaternionToEuler 1%N cs uninit
           (Vector3.mk (f32 1 0) (f32 2 0) (f32 3 0)) 7%nat env eq_refl).
Defined.

Lemma PhysicsUpdate_overwrites_gameplay_writes_witness :
  let e1 := set_hitbox (Some 0%nat)
              (newEntity sampleGetModel (Vector3.mk f0 f0 f0) 7%nat) in
  let e2 := set_hitbox (Some 0%nat)
              (newEntity sampleGetModel (Vector3.mk (f32 5 0) (f32 5 0) (f32 5 0)) 8%nat) in
  let env : @Env nat unit nat :=
    oneActorEnv (PxTransform.ofPosition (PxVec3.mk (f32 1 0) (f32 2 0) (f32 3 0)))
                (PxVec3.splat f1) in
  hitbox e1 = Some 0%nat /\
  hitbox e2 = Some 0%nat /\
  is_Some (actors env !! 0%nat) /\
  exists e1' e2',
    PhysicsUpdate sampleQuaternionToEuler e1 env = Some (e1', env) /\
    PhysicsUpdate sampleQuaternionToEuler e2 env = Some (e2', env) /\
    position e1' = position e2' /\
    rotationQuat e1' = rotationQuat e2' /\
    rotation e1' = rotation e2' /\
    worldMatrix e1' = worldMatrix e2' /\
    velocity e1' = velocity e2'.
Proof.
  intros e1 e2 env.
  assert (Hlive : is_Some (actors env !! 0%nat)) by (eexists; reflexivity).
  split; [reflexivity |]. split; [reflexivity |]. split; [exact Hlive |].
  apply (PhysicsUpdate_overwrites_gameplay_writes sampleQuaternionToEuler
           e1 e2 env 0%nat eq_refl eq_refl Hlive).
Defined.
